(** * Get-Invoices front end: the download client and its session

    A shallow embedding of three TypeScript sources of the front end:

    - [services/api.ts]: [downloadInvoices], the reader loop that cuts the
      response body into lines and dispatches [progress], [done] and [error]
      events;
    - [App.tsx]: [handleDownload] and [handleSubmitOTP], the handlers that
      own the session state (React state cells and the abort-controller ref);
    - [components/StatusDisplay.tsx]: the progress bar.

    A JavaScript string is modelled by the [string] of its code units, for
    text of the Latin-1 range, which is where the protocol lives; the
    French messages are opaque constants that no test of the code looks
    into. JavaScript numbers are binary64 [float]s, a throw is a result of
    its own, and the React state cells are the fields of a record that the
    handlers transform. Each handler is cut at its [await]s, so that other
    handlers can run in between.

    The JSON parser and the other services of the JavaScript platform are
    parameters (class [Platform]). The body of the request (lines 71-80 of
    [api.ts]) is not modelled; the session logs the params of each download
    it requests. *)

From Stdlib Require Import List Bool Arith ZArith Lia Ascii String Floats.
From Stdlib Require Import DecimalString.
Import ListNotations.

Local Set Warnings "-register-all".

Local Open Scope string_scope.
Local Open Scope list_scope.

(** ** JavaScript strings *)

Module JsString.

Definition newline : ascii := "010"%char.

(** White space removed by [String.prototype.trim], in the Latin-1 range:
    TAB, LF, VT, FF, CR, SPACE and NBSP. *)
Definition is_white_space (c : ascii) : bool :=
  let n := nat_of_ascii c in
  (((9 <=? n) && (n <=? 13)) || (n =? 32) || (n =? 160))%nat.

Fixpoint trimStart (s : string) : string :=
  match s with
  | EmptyString => EmptyString
  | String c s' => if is_white_space c then trimStart s' else s
  end.

Fixpoint trimEnd (s : string) : string :=
  match s with
  | EmptyString => EmptyString
  | String c s' =>
      let r := trimEnd s' in
      if is_white_space c && String.eqb r EmptyString
      then EmptyString else String c r
  end.

(** [s.trim()] *)
Definition trim (s : string) : string := trimEnd (trimStart s).

(** [s.startsWith(p)] *)
Fixpoint startsWith (s p : string) : bool :=
  match p, s with
  | EmptyString, _ => true
  | String _ _, EmptyString => false
  | String a p', String b s' => Ascii.eqb a b && startsWith s' p'
  end.

(** [s.slice(n)] for a non-negative [n] *)
Fixpoint slice (n : nat) (s : string) : string :=
  match n, s with
  | O, _ => s
  | S _, EmptyString => EmptyString
  | S n', String _ s' => slice n' s'
  end.

(** [s.split('\n')]: the pieces between line feeds; never empty, and the
    last piece is what follows the last line feed. *)
Fixpoint split_lines (s : string) : list string :=
  match s with
  | EmptyString => [EmptyString]
  | String c s' =>
      if Ascii.eqb c newline then EmptyString :: split_lines s'
      else match split_lines s' with
           | l :: ls => String c l :: ls
           | [] => [String c EmptyString]
           end
  end.

(** [s.includes(p)] *)
Fixpoint includes (s p : string) : bool :=
  startsWith s p ||
  match s with
  | EmptyString => false
  | String _ s' => includes s' p
  end.

(** ASCII letters folded to upper case, as the [i] flag of a regular
    expression compares them. *)
Definition upper (c : ascii) : ascii :=
  let n := nat_of_ascii c in
  if ((97 <=? n) && (n <=? 122))%nat then ascii_of_nat (n - 32) else c.

Fixpoint toUpper (s : string) : string :=
  match s with
  | EmptyString => EmptyString
  | String c s' => String (upper c) (toUpper s')
  end.

(** A string is falsy exactly when it is empty. *)
Definition truthy (s : string) : bool := negb (String.eqb s EmptyString).

Definition no_newline (s : string) : Prop :=
  forall c, In c (list_ascii_of_string s) -> c <> newline.

End JsString.

(** ** JavaScript numbers: the part [StatusDisplay] uses *)

Module JsMath.

(** The value of [Math.round]: an integer, an infinity or NaN (the sign of
    a zero result does not show in the rendered text and is dropped). *)
Inductive rounded : Type :=
| RNaN
| RPosInf
| RNegInf
| RInt (z : Z).

(** [Math.round x]: the integer nearest to [x], ties towards +infinity,
    computed on the exact value [m * 2^e] of the double. *)
Definition round (x : float) : rounded :=
  match Prim2SF x with
  | S754_nan => RNaN
  | S754_infinity s => if s then RNegInf else RPosInf
  | S754_zero _ => RInt 0
  | S754_finite s m e =>
      let v := if s then Z.neg m else Z.pos m in
      if (0 <=? e)%Z then RInt (v * 2 ^ e)%Z
      else RInt ((2 * v + 2 ^ (- e)) / 2 ^ (- e + 1))%Z
  end.

(** [Math.min(k, r)] for an integer [k]. *)
Definition min (k : Z) (r : rounded) : rounded :=
  match r with
  | RNaN => RNaN
  | RPosInf => RInt k
  | RNegInf => RNegInf
  | RInt z => RInt (Z.min k z)
  end.

Definition exceeds (r : rounded) (k : Z) : bool :=
  match r with
  | RNaN => false
  | RPosInf => true
  | RNegInf => false
  | RInt z => (k <? z)%Z
  end.

End JsMath.

(** ** [StatusDisplay.tsx] *)

Module StatusDisplay.

Record ProgressInfo : Type := mkProgressInfo
  { current : float; total : float; message : string }.

(** [const showBar = progress && progress.total > 0] *)
Definition showBar (progress : option ProgressInfo) : bool :=
  match progress with
  | None => false
  | Some p => PrimFloat.ltb 0%float (total p)
  end.

(** [showBar ? Math.min(100, Math.round((current / total) * 100)) : 0] *)
Definition percent (progress : option ProgressInfo) : JsMath.rounded :=
  match progress with
  | Some p =>
      if showBar progress
      then JsMath.min 100
             (JsMath.round (PrimFloat.mul (PrimFloat.div (current p) (total p)) 100%float))
      else JsMath.RInt 0
  | None => JsMath.RInt 0
  end.

(** The percentage as the specification words it,
    [min(100, round(100 * current / total))], read as a JavaScript
    expression (product first, then the quotient). *)
Definition percent_as_specified (p : ProgressInfo) : JsMath.rounded :=
  JsMath.min 100
    (JsMath.round (PrimFloat.div (PrimFloat.mul 100%float (current p)) (total p))).

(** The same formula in exact arithmetic, for an integer [current] and a
    positive integer [total]: [round] is [floor (x + 1/2)]. *)
Definition percent_exact (cur tot : Z) : Z :=
  Z.min 100 ((2 * (100 * cur) + tot) / (2 * tot))%Z.

End StatusDisplay.

(** ** JSON values and the platform *)

Module Json.

(** What [JSON.parse] can return. An object keeps its members as an
    association list; a member read takes the first binding of the name. *)
Inductive value : Type :=
| JNull
| JBool (b : bool)
| JNum (x : float)
| JStr (s : string)
| JArr (items : list value)
| JObj (members : list (string * value)).

(** The result of reading a property: [None] is [undefined]. *)
Definition jsval : Type := option value.

Fixpoint lookup (k : string) (members : list (string * value)) : jsval :=
  match members with
  | [] => None
  | (k', v) :: rest => if String.eqb k k' then Some v else lookup k rest
  end.

(** ToBoolean *)
Definition truthy (v : value) : bool :=
  match v with
  | JNull => false
  | JBool b => b
  | JNum x => negb (PrimFloat.eqb x 0%float) && PrimFloat.eqb x x
  | JStr s => JsString.truthy s
  | JArr _ => true
  | JObj _ => true
  end.

Definition truthy_val (v : jsval) : bool :=
  match v with
  | None => false
  | Some v => truthy v
  end.

(** [v ?? d] *)
Definition nullish_or (v : jsval) (d : value) : value :=
  match v with
  | None => d
  | Some JNull => d
  | Some v => v
  end.

End Json.

(** What the source takes from the JavaScript platform and the repository
    does not define: the JSON parser ([None] stands for a [SyntaxError]),
    the printing of a number, and the text of the [TypeError] raised by a
    property read on [null]. *)
Class Platform : Type := mkPlatform
  { JSON_parse : string -> option Json.value;
    Number_toString : float -> string;
    null_read_message : string -> string }.

(** ** [services/api.ts] *)

Module Api.

Import Json.

(** A thrown value: an [Error] object with its [name] and [message] and,
    when the client has set it, its [requiresOtp] property. *)
Record exn : Type := mkError
  { name : string; message : string; requiresOtp : option value }.

(** [new Error(m)] *)
Definition new_Error (m : string) : exn := mkError "Error" m None.

(** [err.requiresOtp = v] *)
Definition set_requiresOtp (e : exn) (v : value) : exn :=
  mkError (name e) (message e) (Some v).

(** The argument object of one [onProgress] call. *)
Record DownloadProgress : Type := mkDownloadProgress
  { current : value; total : value; message_ : value }.

(** What the reader loop does to the outside and to [lastResult], in order. *)
Inductive effect : Type :=
| OnProgress (p : DownloadProgress)
| RecordDone (data : value).

(** The variables of the reader loop that outlive one iteration. *)
Record LoopState : Type := mkLoopState
  { buffer : string; lastResult : value; trace : list effect }.

Definition initial : LoopState := mkLoopState "" JNull [].

(** [buffer = b] *)
Definition set_buffer (b : string) (st : LoopState) : LoopState :=
  mkLoopState b (lastResult st) (trace st).

(** The payload of the last [done] event recorded in a trace. *)
Fixpoint last_done (tr : list effect) : option value :=
  match tr with
  | [] => None
  | RecordDone data :: rest =>
      match last_done rest with
      | Some later => Some later
      | None => Some data
      end
  | OnProgress _ :: rest => last_done rest
  end.

(** How a statement of the loop ends: normally, with the state and the
    current [eventType], or by a throw. *)
Inductive completion : Type :=
| Normal (st : LoopState) (eventType : string)
| Abrupt (st : LoopState) (e : exn).

Definition map_state (f : LoopState -> LoopState) (c : completion) : completion :=
  match c with
  | Normal st eventType => Normal (f st) eventType
  | Abrupt st e => Abrupt (f st) e
  end.

Definition state_of (c : completion) : LoopState :=
  match c with
  | Normal st _ => st
  | Abrupt st _ => st
  end.

(** [lastResult] holds the payload of the last [done] event recorded, and
    is [null] before the first one. *)
Definition result_recorded (st : LoopState) : Prop :=
  lastResult st = match last_done (trace st) with
                  | Some data => data
                  | None => JNull
                  end.

(** How the body stream ends: it closes, or a read rejects (with the
    [AbortError] of a cancelled request, for one). *)
Inductive ending : Type :=
| Closed
| Rejected (e : exn).

Record Body : Type := mkBody { chunks : list string; finish : ending }.

(** The response of [fetch], as far as the client reads it. Each chunk is
    the text that [decoder.decode(value, { stream: true })] returns for one
    read; [json] is the outcome of [response.json()], [None] when it
    rejects. *)
Record Response : Type := mkResponse
  { ok : bool; status : Z; statusText : string;
    body : option Body; json : option value }.

Section WithPlatform.

Context {platform : Platform}.

(** ToString. [Array.prototype.join] prints [null] items as empty. *)
Fixpoint toString (v : value) : string :=
  match v with
  | JNull => "null"
  | JBool true => "true"
  | JBool false => "false"
  | JNum x => Number_toString x
  | JStr s => s
  | JArr items =>
      (fix join (l : list value) : string :=
         match l with
         | [] => ""
         | x :: rest =>
             let sx := match x with JNull => "" | _ => toString x end in
             match rest with
             | [] => sx
             | _ :: _ => (sx ++ "," ++ join rest)%string
             end
         end) items
  | JObj _ => "[object Object]"
  end.

(** [data.k]: a [TypeError] on [null], the member of an object, and
    [undefined] for the names read here on any other value. *)
Definition get (data : value) (k : string) : jsval + exn :=
  match data with
  | JNull => inr (mkError "TypeError" (null_read_message k) None)
  | JObj members => inl (lookup k members)
  | _ => inl None
  end.

(** [/2FA|OTP/i.test(s)] *)
Definition mentions_otp (s : string) : bool :=
  JsString.includes (JsString.toUpper s) "2FA"
  || JsString.includes (JsString.toUpper s) "OTP".

(** The [error] branch, lines 131-135: builds the error that is thrown. *)
Definition error_event (data : value) : exn :=
  match get data "detail", get data "requires_otp" with
  | inr e, _ => e
  | inl _, inr e => e
  | inl d, inl r =>
      let detail := if truthy_val d then nullish_or d JNull else JStr "Erreur" in
      let requiresOtp :=
        if truthy_val r then nullish_or r JNull
        else JBool (mentions_otp (toString detail)) in
      set_requiresOtp (new_Error (toString detail)) requiresOtp
  end.

(** The [progress] branch, lines 123-127: the argument of [onProgress]. *)
Definition progress_event (data : value) : DownloadProgress + exn :=
  match get data "current", get data "total", get data "message" with
  | inl c, inl t, inl m =>
      inl (mkDownloadProgress
             (nullish_or c (JNum 0%float))
             (nullish_or t (JNum (-1)%float))
             (nullish_or m (JStr "")))
  | inr e, _, _ => inr e
  | _, inr e, _ => inr e
  | _, _, inr e => inr e
  end.

Definition log (st : LoopState) (ev : effect) : LoopState :=
  mkLoopState (buffer st) (lastResult st) (trace st ++ [ev]).

(** One iteration of [for (const line of lines)], lines 117-141.
    [onProgress] tells whether the caller passed the callback. *)
Definition process_line (onProgress : bool) (st : LoopState)
    (eventType line : string) : completion :=
  if JsString.startsWith line "event: " then
    Normal st (JsString.trim (JsString.slice 7 line))
  else if JsString.startsWith line "data: " && JsString.truthy eventType then
    match JSON_parse (JsString.slice 6 line) with
    | None => Normal st eventType
    | Some data =>
        if String.eqb eventType "progress" && onProgress then
          match progress_event data with
          | inl p => Normal (log st (OnProgress p)) eventType
          | inr e => Abrupt st e
          end
        else if String.eqb eventType "done" then
          Normal (log (mkLoopState (buffer st) data (trace st)) (RecordDone data))
                 eventType
        else if String.eqb eventType "error" then
          Abrupt st (error_event data)
        else Normal st eventType
    end
  else Normal st eventType.

(** The [for] loop over the complete lines of one read. *)
Fixpoint process_lines (onProgress : bool) (st : LoopState)
    (eventType : string) (lines : list string) : completion :=
  match lines with
  | [] => Normal st eventType
  | line :: rest =>
      match process_line onProgress st eventType line with
      | Normal st' eventType' => process_lines onProgress st' eventType' rest
      | Abrupt st' e => Abrupt st' e
      end
  end.

(** One iteration of [while (true)] after a successful read, lines 112-142:
    the chunk is appended to the buffer, the text is split, the last piece
    goes back to the buffer, and the other pieces are processed starting
    from [eventType = ''], which is declared inside the iteration. *)
Definition process_chunk (onProgress : bool) (st : LoopState)
    (chunk : string) : completion :=
  let lines := JsString.split_lines (buffer st ++ chunk)%string in
  process_lines onProgress (set_buffer (last lines "") st) "" (removelast lines).

(** The [while] loop, lines 109-143. *)
Fixpoint read_loop (onProgress : bool) (st : LoopState)
    (chunks : list string) (finish : ending) : LoopState * option exn :=
  match chunks with
  | [] =>
      match finish with
      | Closed => (st, None)
      | Rejected e => (st, Some e)
      end
  | chunk :: rest =>
      match process_chunk onProgress st chunk with
      | Normal st' _ => read_loop onProgress st' rest finish
      | Abrupt st' e => (st', Some e)
      end
  end.

(** The outcome of the promise, with the [onProgress] calls made before it
    settled. *)
Inductive outcome : Type :=
| Return (result : value)
| Throw (e : exn).

(** Lines 89-98: a failed response without a body. *)
Definition reject_response (response : Response) : exn :=
  let errData := match json response with Some v => v | None => JObj [] end in
  match get errData "detail" with
  | inr e => e
  | inl d =>
      let detail :=
        if truthy_val d then toString (nullish_or d JNull)
        else statusText response in
      if (status response =? 401)%Z
      then set_requiresOtp (new_Error detail) (JBool true)
      else new_Error detail
  end.

(** [downloadInvoices] from line 89 on, for the response that [fetch]
    resolved with. *)
Definition downloadInvoices (onProgress : bool) (response : Response)
  : list effect * outcome :=
  match body response with
  | None =>
      if negb (ok response) then ([], Throw (reject_response response))
      else ([], Throw (new_Error "Réponse vide"))
  | Some b =>
      match read_loop onProgress initial (chunks b) (finish b) with
      | (st, Some e) => (trace st, Throw e)
      | (st, None) =>
          if negb (truthy (lastResult st))
          then (trace st, Throw (new_Error "Téléchargement terminé sans résultat"))
          else (trace st, Return (lastResult st))
      end
  end.

End WithPlatform.

End Api.

(** ** [App.tsx] *)

Module App.

Import Json.

Record DownloadParams : Type := mkDownloadParams
  { provider : option string;
    max_invoices : Z;
    year : option Z;
    month : option Z;
    months : option (list Z);
    date_start : option string;
    date_end : option string;
    force_redownload : option bool }.

Record OTPResponse : Type := mkOTPResponse
  { success : bool; message : string; requires_otp : bool }.

(** The requests that the handlers send, in order. A download carries the
    signal of its [AbortController], named by the controller's index. *)
Inductive request : Type :=
| PostDownload (params : DownloadParams) (signal : nat)
| PostSubmitOtp (otp_code : string).

(** The state cells of [App], the [abortControllerRef], the controllers
    created so far (the [aborted] flag of each signal, by index), the
    requests sent so far and the controllers of the [handleDownload] calls
    that have run to their end. *)
Record Session : Type := mkSession
  { status : string;
    progress : option Api.DownloadProgress;
    result : option value;
    loading : bool;
    error : option string;
    requiresOTP : bool;
    otpCode : string;
    otpError : option string;
    pendingDownload : option DownloadParams;
    abortControllerRef : option nat;
    controllers : list bool;
    network : list request;
    settled : list nat }.

Definition initial : Session :=
  mkSession "Vérification..." None None false None false "" None None None [] [] [].

(** [controller.abort()] *)
Fixpoint abort (c : nat) (store : list bool) : list bool :=
  match store, c with
  | [], _ => []
  | _ :: rest, O => true :: rest
  | b :: rest, S c' => b :: abort c' rest
  end.

(** [signal.aborted] *)
Definition aborted (c : nat) (store : list bool) : bool := nth c store false.

(** [handleDownload], lines 66-79: everything up to the [await]. Returns
    the new state and the controller of this call. *)
Definition handleDownload_begin (params : DownloadParams) (s : Session)
  : Session * nat :=
  let store :=
    match abortControllerRef s with
    | Some previous => abort previous (controllers s)
    | None => controllers s
    end in
  let controller := List.length store in
  (mkSession "Connexion en cours…" None None true None false (otpCode s) None
     (pendingDownload s) (Some controller) (store ++ [false])
     (network s ++ [PostDownload params controller]) (settled s),
   controller).

Section WithPlatform.

Context {platform : Platform}.

(** The [onProgress] callback, lines 82-85. *)
Definition on_progress (p : Api.DownloadProgress) (s : Session) : Session :=
  let text :=
    if truthy (Api.message_ p) then Api.toString (Api.message_ p)
    else (Api.toString (Api.current p) ++ " facture(s)")%string in
  mkSession text (Some p) (result s) (loading s) (error s) (requiresOTP s)
    (otpCode s) (otpError s) (pendingDownload s) (abortControllerRef s)
    (controllers s) (network s) (settled s).

Definition on_effect (ev : Api.effect) (s : Session) : Session :=
  match ev with
  | Api.OnProgress p => on_progress p s
  | Api.RecordDone _ => s
  end.

End WithPlatform.

(** [a || b] on strings *)
Definition or_else (a b : string) : string :=
  if JsString.truthy a then a else b.

(** The [finally] block of [handleDownload], lines 116-119. *)
Definition handleDownload_finally (controller : nat) (s : Session) : Session :=
  mkSession (status s) (progress s) (result s) false (error s) (requiresOTP s)
    (otpCode s) (otpError s) (pendingDownload s)
    (match abortControllerRef s with
     | Some c => if Nat.eqb c controller then None else Some c
     | None => None
     end)
    (controllers s) (network s) (controller :: settled s).

(** [handleDownload], lines 87-119: what follows the [await], for the
    outcome of [downloadInvoices]. *)
Definition handleDownload_end (controller : nat) (params : DownloadParams)
    (out : Api.outcome) (s : Session) : Session :=
  let set st res err otp pend :=
    mkSession st None res (loading s) err otp (otpCode s) (otpError s) pend
      (abortControllerRef s) (controllers s) (network s) (settled s) in
  handleDownload_finally controller
    match out with
    | Api.Return response =>
        set "Téléchargement terminé" (Some response) (error s) false
          (pendingDownload s)
    | Api.Throw err =>
        if String.eqb (Api.name err) "AbortError" then
          set "Téléchargement annulé" (result s) None (requiresOTP s)
            (pendingDownload s)
        else if truthy_val (Api.requiresOtp err) then
          set "Code 2FA requis" (result s)
            (Some (or_else (Api.message err)
               "Code 2FA requis. Veuillez saisir le code reçu par SMS, email ou application."))
            true (Some params)
        else if JsString.includes (Api.message err) "Failed to fetch" then
          set "Erreur réseau" (result s)
            (Some "Impossible de joindre le backend. Vérifiez qu'il est démarré (http://localhost:8001).")
            (requiresOTP s) (pendingDownload s)
        else if JsString.includes (Api.message err) "timeout" then
          set "Timeout" (result s)
            (Some (or_else (Api.message err)
               "Téléchargement interrompu (timeout). Réduisez la période ou le nombre de factures."))
            (requiresOTP s) (pendingDownload s)
        else
          set "Erreur lors du téléchargement" (result s)
            (Some (Api.message err)) (requiresOTP s) (pendingDownload s)
    end.

(** [handleCancelDownload] *)
Definition handleCancelDownload (s : Session) : Session :=
  match abortControllerRef s with
  | Some c =>
      mkSession (status s) (progress s) (result s) (loading s) (error s)
        (requiresOTP s) (otpCode s) (otpError s) (pendingDownload s)
        (abortControllerRef s) (abort c (controllers s)) (network s) (settled s)
  | None => s
  end.

(** The [onChange] of the code input: [setOtpCode(e.target.value)]. *)
Definition setOtpCode (code : string) (s : Session) : Session :=
  mkSession (status s) (progress s) (result s) (loading s) (error s)
    (requiresOTP s) code (otpError s) (pendingDownload s)
    (abortControllerRef s) (controllers s) (network s) (settled s).

Definition setPendingDownload (p : option DownloadParams) (s : Session) : Session :=
  mkSession (status s) (progress s) (result s) (loading s) (error s)
    (requiresOTP s) (otpCode s) (otpError s) p
    (abortControllerRef s) (controllers s) (network s) (settled s).

Definition setLoading (b : bool) (s : Session) : Session :=
  mkSession (status s) (progress s) (result s) b (error s)
    (requiresOTP s) (otpCode s) (otpError s) (pendingDownload s)
    (abortControllerRef s) (controllers s) (network s) (settled s).

Definition setOtpError (e : option string) (s : Session) : Session :=
  mkSession (status s) (progress s) (result s) (loading s) (error s)
    (requiresOTP s) (otpCode s) e (pendingDownload s)
    (abortControllerRef s) (controllers s) (network s) (settled s).

(** [handleSubmitOTP], lines 128-137: the check of the code and, when it
    passes, the request. [None] is the early [return]. *)
Definition handleSubmitOTP_begin (s : Session) : Session * option string :=
  if negb (JsString.truthy (otpCode s)) || (String.length (otpCode s) <? 4)%nat
  then (setOtpError (Some "Le code doit contenir au moins 4 caractères") s, None)
  else
    let s1 := setLoading true (setOtpError None s) in
    (mkSession (status s1) (progress s1) (result s1) (loading s1) (error s1)
       (requiresOTP s1) (otpCode s1) (otpError s1) (pendingDownload s1)
       (abortControllerRef s1) (controllers s1)
       (network s1 ++ [PostSubmitOtp (otpCode s)]) (settled s1),
     Some (otpCode s)).

(** The accepted-code branch up to the nested [await], lines 140-145.
    [pending] is the [pendingDownload] that the handler closed over. *)
Definition otp_accepted (pending : option DownloadParams) (s : Session)
  : Session * option (DownloadParams * nat) :=
  let s1 :=
    mkSession "Code OTP accepté" (progress s) (result s) (loading s) (error s)
      false "" (otpError s) (pendingDownload s)
      (abortControllerRef s) (controllers s) (network s) (settled s) in
  match pending with
  | Some params =>
      let (s2, controller) := handleDownload_begin params s1 in
      (s2, Some (params, controller))
  | None => (s1, None)
  end.

(** The refused-code branch, lines 149-150. *)
Definition otp_refused (response : OTPResponse) (s : Session) : Session :=
  mkSession (status s) (progress s) (result s) (loading s) (error s)
    (requires_otp response) (otpCode s)
    (Some (or_else (message response) "Code OTP incorrect ou expiré"))
    (pendingDownload s) (abortControllerRef s) (controllers s) (network s) (settled s).

(** The [Annuler] button of the code form, lines 212-217. *)
Definition dismiss_challenge (s : Session) : Session :=
  mkSession (status s) (progress s) (result s) (loading s) (error s)
    false "" None None
    (abortControllerRef s) (controllers s) (network s) (settled s).

(** [checkStatus], lines 46-63, once [getStatus] has answered with the
    given message, with or without the status [otp_required], or has
    failed, with a network error or otherwise. *)
Definition checkStatus (answer : string * bool + bool) (s : Session) : Session :=
  let set text otp :=
    mkSession text (progress s) (result s) (loading s) (error s) otp
      (otpCode s) (otpError s) (pendingDownload s)
      (abortControllerRef s) (controllers s) (network s) (settled s) in
  match answer with
  | inl (text, otp_required) =>
      set text (if otp_required then true else requiresOTP s)
  | inr true =>
      set "Backend injoignable. Lancez .\start.ps1 ou le backend sur http://localhost:8001"
          (requiresOTP s)
  | inr false => set "Erreur de connexion au serveur" (requiresOTP s)
  end.

(** A download is live when its controller exists, its signal is not
    aborted and its [handleDownload] has not run to its end. *)
Definition live (s : Session) (c : nat) : Prop :=
  c < List.length (controllers s)
  /\ aborted c (controllers s) = false
  /\ ~ In c (settled s).

Section Handlers.

Context {platform : Platform}.

(** [handleDownload] run to its end: [run] is what [downloadInvoices] did,
    the [onProgress] calls and the outcome. *)
Definition handleDownload (params : DownloadParams)
    (run : list Api.effect * Api.outcome) (s : Session) : Session :=
  let (s1, controller) := handleDownload_begin params s in
  let s2 := fold_left (fun st ev => on_effect ev st) (fst run) s1 in
  handleDownload_end controller params (snd run) s2.

(** [handleSubmitOTP] run to its end: [reply] is the outcome of
    [submitOTP], and [run] what the resumed download does when there is
    one. The handler reads [otpCode] and [pendingDownload] as they are when
    it starts. *)
Definition handleSubmitOTP (reply : OTPResponse + Api.exn)
    (run : list Api.effect * Api.outcome) (s : Session) : Session :=
  match handleSubmitOTP_begin s with
  | (s1, None) => s1
  | (s1, Some _) =>
      setLoading false
        match reply with
        | inl response =>
            if success response && negb (requires_otp response) then
              match otp_accepted (pendingDownload s) s1 with
              | (s2, Some (params, controller)) =>
                  let s3 := fold_left (fun st ev => on_effect ev st) (fst run) s2 in
                  setPendingDownload None
                    (handleDownload_end controller params (snd run) s3)
              | (s2, None) => s2
              end
            else otp_refused response s1
        | inr err => setOtpError (Some (Api.message err)) s1
        end
  end.

(** One step of the session: a handler runs up to its next [await], or
    from an [await] to the next one or to its end. A download may end at
    any time after its controller was created. *)
Inductive step : Session -> Session -> Prop :=
| step_checkStatus answer s : step s (checkStatus answer s)
| step_download_begin params s : step s (fst (handleDownload_begin params s))
| step_progress p s : step s (on_progress p s)
| step_download_end c params out s :
    c < List.length (controllers s) ->
    step s (handleDownload_end c params out s)
| step_cancel s : step s (handleCancelDownload s)
| step_type code s : step s (setOtpCode code s)
| step_submit_begin s : step s (fst (handleSubmitOTP_begin s))
| step_otp_accepted pending s : step s (fst (otp_accepted pending s))
| step_otp_refused response s : step s (otp_refused response s)
| step_otp_failed err s : step s (setOtpError (Some (Api.message err)) s)
| step_pending_cleared s : step s (setPendingDownload None s)
| step_loading_done s : step s (setLoading false s)
| step_dismiss s : step s (dismiss_challenge s).

Inductive reachable : Session -> Prop :=
| reachable_initial : reachable initial
| reachable_step s s' : reachable s -> step s s' -> reachable s'.

End Handlers.

(** The ref holds an existing controller, and a live download is the one
    whose controller the ref holds. *)
Definition single_flight (s : Session) : Prop :=
  (forall c, abortControllerRef s = Some c -> c < List.length (controllers s))
  /\ (forall c, live s c -> abortControllerRef s = Some c).

(** A download that has ended has an existing controller. *)
Definition settled_bound (s : Session) : Prop :=
  forall c, In c (settled s) -> c < List.length (controllers s).

End App.


(** ** A platform for the examples *)

Module Sample.

Import Json.

Definition nl : string := String JsString.newline "".

Definition quoted (s : string) : string :=
  (String (ascii_of_nat 34) s ++ String (ascii_of_nat 34) "")%string.

(** [{"current":1,"total":2}] *)
Definition progress_text : string :=
  ("{" ++ quoted "current" ++ ":1," ++ quoted "total" ++ ":2}")%string.

(** [{"count":1}] *)
Definition done_text : string := ("{" ++ quoted "count" ++ ":1}")%string.

(** [{"detail":"OTP expired","requires_otp":false}] *)
Definition refused_otp_text : string :=
  ("{" ++ quoted "detail" ++ ":" ++ quoted "OTP expired" ++ ","
       ++ quoted "requires_otp" ++ ":false}")%string.

(** [{"detail":"2FA code expired"}] *)
Definition sniffed_otp_text : string :=
  ("{" ++ quoted "detail" ++ ":" ++ quoted "2FA code expired" ++ "}")%string.

(** The JSON texts that the examples parse, with their values. *)
Definition texts : list (string * value) :=
  [ ("{}", JObj []);
    ("null", JNull);
    (progress_text, JObj [("current", JNum 1%float); ("total", JNum 2%float)]);
    (done_text, JObj [("count", JNum 1%float)]);
    (refused_otp_text,
     JObj [("detail", JStr "OTP expired"); ("requires_otp", JBool false)]);
    (sniffed_otp_text, JObj [("detail", JStr "2FA code expired")]) ].

(** Prints the integers that the examples use. *)
Definition print_number (x : float) : string :=
  match JsMath.round x with
  | JsMath.RInt z => DecimalString.NilZero.string_of_int (Z.to_int z)
  | JsMath.RNaN => "NaN"
  | JsMath.RPosInf => "Infinity"
  | JsMath.RNegInf => "-Infinity"
  end.

(** The parser of this platform knows the texts of [texts] and rejects any
    other text; the examples parse only these texts and texts that are not
    JSON. The [TypeError] text is the one of V8. *)
#[export] Instance platform : Platform :=
  mkPlatform
    (fun s => lookup s texts)
    print_number
    (fun k => ("Cannot read properties of null (reading '" ++ k ++ "')")%string).

(** A successful response whose body streams the given chunks. *)
Definition streamed (chunks : list string) : Api.Response :=
  Api.mkResponse true 200 "OK" (Some (Api.mkBody chunks Api.Closed)) None.

(** The request of the scenarios: [{ max_invoices: 50, year: 2024 }]. *)
Definition params_2024 : App.DownloadParams :=
  App.mkDownloadParams None 50 (Some 2024%Z) None None None None None.

(** The error of a stream that asks for a code. *)
Definition otp_required : Api.exn :=
  Api.mkError "Error" "Code 2FA requis" (Some (JBool true)).

(** The answer of [submitOTP] to a good code. *)
Definition code_accepted : App.OTPResponse := App.mkOTPResponse true "OK" false.

End Sample.

(** ** The body of the download request *)

Module Request.

(** A value stored in the body: a number, a string, a boolean or the list
    of months. *)
Inductive field : Type :=
| FNumber (n : Z)
| FString (s : string)
| FBoolean (b : bool)
| FNumbers (l : list Z).

(** [if (v) body[k] = v] for an optional string: absent and empty strings
    are both falsy. *)
Definition put_truthy (k : string) (v : option string)
    (body : list (string * field)) : list (string * field) :=
  match v with
  | Some s => if JsString.truthy s then body ++ [(k, FString s)] else body
  | None => body
  end.

(** [if (v != null) body[k] = v] for an optional number. *)
Definition put_number (k : string) (v : option Z)
    (body : list (string * field)) : list (string * field) :=
  match v with
  | Some n => body ++ [(k, FNumber n)]
  | None => body
  end.

(** [if (months != null && months.length > 0) body.months = months] *)
Definition put_months (v : option (list Z))
    (body : list (string * field)) : list (string * field) :=
  match v with
  | Some (m :: l) => body ++ [("months", FNumbers (m :: l))]
  | _ => body
  end.

(** Lines 71-80 of [api.ts]: the object that [downloadInvoices] posts, its
    members in the order of their creation. *)
Definition body (params : App.DownloadParams) : list (string * field) :=
  let b0 :=
    [ ("max_invoices", FNumber (App.max_invoices params));
      ("force_redownload",
       FBoolean (match App.force_redownload params with
                 | Some b => b
                 | None => false
                 end)) ] in
  let b1 := put_truthy "provider" (App.provider params) b0 in
  let b2 := put_number "year" (App.year params) b1 in
  let b3 := put_number "month" (App.month params) b2 in
  let b4 := put_months (App.months params) b3 in
  let b5 := put_truthy "date_start" (App.date_start params) b4 in
  put_truthy "date_end" (App.date_end params) b5.

(** [body[k]] *)
Fixpoint member (k : string) (b : list (string * field)) : option field :=
  match b with
  | [] => None
  | (k', v) :: rest => if String.eqb k k' then Some v else member k rest
  end.

(** What the body holds for an optional string, an optional number and the
    optional months: nothing for a value that JavaScript takes for absent
    (no value, the empty string, the empty list). *)
Definition text_member (v : option string) : option field :=
  match v with
  | Some s => if JsString.truthy s then Some (FString s) else None
  | None => None
  end.

Definition number_member (v : option Z) : option field :=
  match v with
  | Some n => Some (FNumber n)
  | None => None
  end.

Definition months_member (v : option (list Z)) : option field :=
  match v with
  | Some (m :: l) => Some (FNumbers (m :: l))
  | _ => None
  end.

Definition key_if (k : string) (v : option field) : list string :=
  match v with
  | Some _ => [k]
  | None => []
  end.

End Request.

(** ** The reads of the loop, seen as groups of lines *)

Module Reads.

Import Api.

(** Lines 112-114 for each read in turn: the complete lines that each read
    hands to the [for] loop, and the buffer left after the last read. *)
Fixpoint line_groups (buf : string) (chunks : list string)
  : list (list string) * string :=
  match chunks with
  | [] => ([], buf)
  | chunk :: rest =>
      let lines := JsString.split_lines (buf ++ chunk)%string in
      let (groups, final) := line_groups (last lines "") rest in
      (removelast lines :: groups, final)
  end.

(** [lines.join('\n')] *)
Fixpoint join_lines (lines : list string) : string :=
  match lines with
  | [] => ""
  | [l] => l
  | l :: rest => (l ++ String JsString.newline (join_lines rest))%string
  end.

(** The lines of a read begin with an [event:] line, or the read completes
    no line. *)
Definition event_first (group : list string) : Prop :=
  match group with
  | [] => True
  | line :: _ => JsString.startsWith line "event: " = true
  end.

Section Groups.

Context {platform : Platform}.

(** The [for] loop run on each group of lines in turn, each time from
    [eventType = '']: the [while] loop without its buffer. *)
Fixpoint run_groups (onProgress : bool) (st : LoopState)
    (groups : list (list string)) (finish : ending) : LoopState * option exn :=
  match groups with
  | [] =>
      match finish with
      | Closed => (st, None)
      | Rejected e => (st, Some e)
      end
  | group :: rest =>
      match process_lines onProgress st "" group with
      | Normal st' _ => run_groups onProgress st' rest finish
      | Abrupt st' e => (st', Some e)
      end
  end.


End Groups.

(** What a caller can see of a run of the loop: [lastResult], the effects
    and the error thrown, if any. *)
Definition observed (r : LoopState * option exn)
  : Json.value * list effect * option exn :=
  (lastResult (fst r), trace (fst r), snd r).

(** The effect is a call of [onProgress]. *)
Definition is_progress_call (ev : effect) : bool :=
  match ev with
  | OnProgress _ => true
  | RecordDone _ => false
  end.

End Reads.

(** ** What [StatusDisplay] receives from [App] *)

Module View.

Import Json.

(** The value as the number that its declared type says it is. *)
Definition as_number (v : value) : option float :=
  match v with
  | JNum x => Some x
  | _ => None
  end.

Definition as_string (v : value) : option string :=
  match v with
  | JStr s => Some s
  | _ => None
  end.

(** The [progress] state cell as the [ProgressInfo] prop, for a value that
    has the declared types ([current] and [total] numbers, [message] a
    string). *)
Definition progress_prop (p : Api.DownloadProgress)
  : option StatusDisplay.ProgressInfo :=
  match as_number (Api.current p), as_number (Api.total p),
        as_string (Api.message_ p) with
  | Some c, Some t, Some m => Some (StatusDisplay.mkProgressInfo c t m)
  | _, _, _ => None
  end.

End View.

(** ** How [handleDownload] reads the outcome of a download *)

Module Outcome.

(** [err.name === 'AbortError'] *)
Definition is_abort (err : Api.exn) : bool :=
  String.eqb (Api.name err) "AbortError".


(** The outcome is a success or a cancellation. *)
Definition is_quiet (out : Api.outcome) : bool :=
  match out with
  | Api.Return _ => true
  | Api.Throw err => is_abort err
  end.

End Outcome.

(** ** Sessions for the examples *)

Module Scenes.

Import Sample.

(** The session after a first download has asked for a code, and the code
    typed in. *)
Definition challenged : App.Session :=
  App.setOtpCode "123456"
    (App.handleDownload params_2024 ([], Api.Throw otp_required) App.initial).

(** The session while a first download is in flight. *)
Definition downloading : App.Session :=
  fst (App.handleDownload_begin params_2024 App.initial).

End Scenes.

(** * Properties *)

(** ** The progress bar *)

Example percent_half : StatusDisplay.percent
  (Some (StatusDisplay.mkProgressInfo 1%float 2%float "")) = JsMath.RInt 50.
Proof. vm_compute. reflexivity. Qed.

Example percent_overshoot : StatusDisplay.percent
  (Some (StatusDisplay.mkProgressInfo 7%float 2%float "")) = JsMath.RInt 100.
Proof. vm_compute. reflexivity. Qed.

Lemma min_never_exceeds (k : Z) (r : JsMath.rounded) :
  JsMath.exceeds (JsMath.min k r) k = false.
Proof.
  destruct r as [| | |z]; simpl; try reflexivity.
  - apply Z.ltb_irrefl.
  - apply Z.ltb_ge, Z.le_min_l.
Qed.

(** C10, as stated, fails: with [current = 23] and [total = 40] the bar is
    shown and [current >= 0]; the component displays 57, because the
    quotient 23/40 is rounded to a double before it is multiplied by 100,
    which gives 57.49999999999999. But [100 * current / total] is 57.5,
    in exact arithmetic and as a JavaScript expression, and its rounding
    is 58 (also were ties rounded to even). *)
Lemma percent_is_not_the_specified_rounding :
  let p := StatusDisplay.mkProgressInfo 23%float 40%float "" in
  StatusDisplay.showBar (Some p) = true
  /\ PrimFloat.leb 0%float (StatusDisplay.current p) = true
  /\ StatusDisplay.percent (Some p) = JsMath.RInt 57
  /\ StatusDisplay.percent_as_specified p = JsMath.RInt 58
  /\ StatusDisplay.percent_exact 23 40 = 58%Z
  /\ StatusDisplay.percent (Some p) <> StatusDisplay.percent_as_specified p.
Proof.
  vm_compute. repeat split; discriminate.
Qed.

(** C10, amended: the bar is rendered exactly when a progress value is
    present and its total is strictly positive; the percentage is then
    [Math.min(100, Math.round((current / total) * 100))] in double
    arithmetic (quotient first), it is 0 when no bar is rendered, and in
    every case it does not exceed 100. *)
Theorem percent_guarded_and_capped (progress : option StatusDisplay.ProgressInfo) :
  (StatusDisplay.showBar progress = true <->
     exists p, progress = Some p
               /\ PrimFloat.ltb 0%float (StatusDisplay.total p) = true)
  /\ (forall p, progress = Some p -> StatusDisplay.showBar progress = true ->
        StatusDisplay.percent progress =
        JsMath.min 100
          (JsMath.round
             (PrimFloat.mul
                (PrimFloat.div (StatusDisplay.current p) (StatusDisplay.total p))
                100%float)))
  /\ (StatusDisplay.showBar progress = false ->
        StatusDisplay.percent progress = JsMath.RInt 0)
  /\ JsMath.exceeds (StatusDisplay.percent progress) 100 = false.
Proof.
  destruct progress as [p|]; simpl.
  - repeat split.
    + intros H. exists p. split; [reflexivity|exact H].
    + intros [q [Hq Hlt]]. injection Hq as <-. exact Hlt.
    + intros q Hq Hs. injection Hq as <-. rewrite Hs. reflexivity.
    + intros Hs. rewrite Hs. reflexivity.
    + destruct (PrimFloat.ltb 0 (StatusDisplay.total p)).
      * apply min_never_exceeds.
      * reflexivity.
  - repeat split; try discriminate.
    intros [q [Hq _]]. discriminate.
Qed.

(** ** Lines and chunks *)

Section SplitLines.

Import JsString.

Lemma append_assoc (a b c : string) :
  ((a ++ b) ++ c = a ++ (b ++ c))%string.
Proof. induction a as [|x a IH]; simpl; [reflexivity|now rewrite IH]. Qed.

Lemma append_empty_r (a : string) : (a ++ "")%string = a.
Proof. induction a as [|x a IH]; simpl; [reflexivity|now rewrite IH]. Qed.

Lemma split_lines_nonempty (s : string) : split_lines s <> [].
Proof.
  destruct s as [|c s]; simpl; [discriminate|].
  destruct (Ascii.eqb c newline); [discriminate|].
  destruct (split_lines s); discriminate.
Qed.

Lemma no_newline_cons (c : ascii) (s : string) :
  no_newline (String c s) <-> c <> newline /\ no_newline s.
Proof.
  unfold no_newline; simpl; split.
  - intros H; split; [apply H; now left|intros d Hd; apply H; now right].
  - intros [Hc Hs] d [<-|Hd]; [exact Hc|now apply Hs].
Qed.

Lemma no_newline_empty : no_newline "".
Proof. intros c []. Qed.

Lemma no_newline_app (a b : string) :
  no_newline (a ++ b) <-> no_newline a /\ no_newline b.
Proof.
  induction a as [|c a IH]; simpl.
  - split; [intros H; split; [apply no_newline_empty|exact H]|intros [_ H]; exact H].
  - rewrite !no_newline_cons, IH. tauto.
Qed.

(** Splitting commutes with appending: the last piece of the first text is
    glued to what follows. *)
Lemma split_lines_app (a b : string) :
  split_lines (a ++ b) =
  removelast (split_lines a) ++ split_lines (last (split_lines a) "" ++ b).
Proof.
  induction a as [|c a IH]; simpl; [reflexivity|].
  destruct (Ascii.eqb c newline) eqn:Hc.
  - rewrite IH.
    destruct (split_lines a) as [|l ls] eqn:Ha; [now apply split_lines_nonempty in Ha|].
    reflexivity.
  - rewrite IH.
    destruct (split_lines a) as [|l ls] eqn:Ha; [now apply split_lines_nonempty in Ha|].
    destruct ls as [|l' ls'].
    + simpl. rewrite Hc.
      destruct (split_lines (l ++ b)) as [|x xs] eqn:Hx;
        [now apply split_lines_nonempty in Hx|reflexivity].
    + simpl removelast. simpl last. simpl app.
      reflexivity.
Qed.

Lemma split_lines_no_newline (p : string) :
  no_newline p -> split_lines p = [p].
Proof.
  induction p as [|c p IH]; intros H; simpl; [reflexivity|].
  apply no_newline_cons in H as [Hc Hp].
  destruct (Ascii.eqb_spec c newline) as [->|_]; [contradiction|].
  rewrite IH by exact Hp. reflexivity.
Qed.

(** Every piece of a split is free of line feeds. *)
Lemma split_lines_pieces (s : string) :
  Forall no_newline (split_lines s).
Proof.
  induction s as [|c s IH]; simpl.
  - constructor; [apply no_newline_empty|constructor].
  - destruct (Ascii.eqb_spec c newline) as [->|Hc].
    + constructor; [apply no_newline_empty|exact IH].
    + destruct (split_lines s) as [|l ls]; [constructor; [|constructor]|].
      * apply no_newline_cons; split; [exact Hc|apply no_newline_empty].
      * inversion IH; subst. constructor; [|assumption].
        apply no_newline_cons; split; assumption.
Qed.

Lemma split_lines_last_no_newline (s : string) :
  no_newline (last (split_lines s) "").
Proof.
  pose proof (split_lines_pieces s) as H.
  induction H as [|x l Hx Hl IH]; simpl; [apply no_newline_empty|].
  destruct l; [exact Hx|exact IH].
Qed.

(** A text without a line feed, appended, only lengthens the last piece. *)
Lemma split_lines_app_partial (a p : string) :
  no_newline p ->
  removelast (split_lines (a ++ p)) = removelast (split_lines a)
  /\ last (split_lines (a ++ p)) "" = (last (split_lines a) "" ++ p)%string.
Proof.
  intros Hp. rewrite split_lines_app.
  rewrite (split_lines_no_newline (last (split_lines a) "" ++ p)).
  - split.
    + rewrite removelast_app by discriminate. simpl. apply app_nil_r.
    + apply last_last.
  - apply no_newline_app; split; [apply split_lines_last_no_newline|exact Hp].
Qed.

End SplitLines.

(** ** The reader loop of [downloadInvoices] *)

Section ReaderLoop.

Import Json Api.

Context {platform : Platform}.

Lemma data_line_is_no_event_line (line : string) :
  JsString.startsWith line "data: " = true ->
  JsString.startsWith line "event: " = false.
Proof.
  destruct line as [|c line]; cbn [JsString.startsWith]; [discriminate|].
  destruct (Ascii.eqb_spec "d"%char c) as [<-|]; cbn [andb]; [|discriminate].
  intros _. reflexivity.
Qed.

(** A [data:] line that [JSON.parse] rejects leaves the state and the
    current event type as they are. *)
Lemma process_line_bad_json (onProgress : bool) (st : LoopState)
    (eventType line : string) :
  JsString.startsWith line "data: " = true ->
  JSON_parse (JsString.slice 6 line) = None ->
  process_line onProgress st eventType line = Normal st eventType.
Proof.
  intros Hdata Hbad. unfold process_line.
  rewrite (data_line_is_no_event_line line Hdata), Hdata, Hbad.
  destruct (JsString.truthy eventType); reflexivity.
Qed.

Lemma process_lines_app (onProgress : bool) (st : LoopState)
    (eventType : string) (l1 l2 : list string) :
  process_lines onProgress st eventType (l1 ++ l2) =
  match process_lines onProgress st eventType l1 with
  | Normal st' eventType' => process_lines onProgress st' eventType' l2
  | Abrupt st' e => Abrupt st' e
  end.
Proof.
  revert st eventType.
  induction l1 as [|l l1 IH]; intros st eventType; simpl; [reflexivity|].
  destruct (process_line onProgress st eventType l); [apply IH|reflexivity].
Qed.

Lemma read_loop_app (onProgress : bool) (st : LoopState)
    (xs ys : list string) (fin : ending) :
  read_loop onProgress st (xs ++ ys) fin =
  match read_loop onProgress st xs Closed with
  | (st', None) => read_loop onProgress st' ys fin
  | (st', Some e) => (st', Some e)
  end.
Proof.
  revert st.
  induction xs as [|x xs IH]; intros st; simpl; [reflexivity|].
  destruct (process_chunk onProgress st x); [apply IH|reflexivity].
Qed.

Lemma split_lines_line (l rest : string) :
  JsString.no_newline l ->
  JsString.split_lines (l ++ String JsString.newline rest) =
  l :: JsString.split_lines rest.
Proof.
  induction l as [|c l IH]; intros Hl; simpl.
  - reflexivity.
  - apply no_newline_cons in Hl as [Hc Hl].
    destruct (Ascii.eqb_spec c JsString.newline) as [->|_]; [contradiction|].
    rewrite (IH Hl). reflexivity.
Qed.

Lemma removelast_cons_nonempty {A : Type} (x : A) (l : list A) :
  l <> [] -> removelast (x :: l) = x :: removelast l.
Proof. destruct l; [contradiction|reflexivity]. Qed.

Lemma last_app_nonempty {A : Type} (d : A) (l1 l2 : list A) :
  l2 <> [] -> last (l1 ++ l2) d = last l2 d.
Proof.
  intros H. induction l1 as [|x l1 IH]; simpl; [reflexivity|].
  destruct (l1 ++ l2) eqn:E; [|exact IH].
  apply app_eq_nil in E as [_ E]. contradiction.
Qed.

Lemma last_cons_nonempty {A : Type} (x d : A) (l : list A) :
  l <> [] -> last (x :: l) d = last l d.
Proof. destruct l; [contradiction|reflexivity]. Qed.

(** C8: a [data:] line whose payload is not valid JSON is skipped without
    any effect. The [for] loop over the lines of a read ends exactly as if
    the line were not there, so the lines after it are processed as usual;
    and the whole [while] loop, from any state, ends on a stream that
    carries such a line (at a line boundary of a chunk) exactly as on the
    stream without it: nothing is thrown for the line, and the rest of the
    chunk and the remaining chunks are processed. *)
Theorem malformed_payload_is_skipped (onProgress : bool) (st : LoopState)
    (eventType bad : string) (before after : list string)
    (c1 c2 : string) (rest : list string) (fin : ending) :
  JsString.startsWith bad "data: " = true ->
  JsString.no_newline bad ->
  JSON_parse (JsString.slice 6 bad) = None ->
  process_lines onProgress st eventType (before ++ bad :: after) =
  process_lines onProgress st eventType (before ++ after)
  /\ (last (JsString.split_lines (buffer st ++ c1)) "" = "" ->
      read_loop onProgress st
        ((c1 ++ bad ++ String JsString.newline c2)%string :: rest) fin =
      read_loop onProgress st ((c1 ++ c2)%string :: rest) fin).
Proof.
  intros Hdata Hline Hbad.
  assert (Hskip : forall s ev l1 l2,
             process_lines onProgress s ev (l1 ++ bad :: l2) =
             process_lines onProgress s ev (l1 ++ l2)).
  { intros s ev l1 l2. rewrite !process_lines_app.
    destruct (process_lines onProgress s ev l1) as [st' ev'|st' e];
      [|reflexivity].
    simpl. rewrite (process_line_bad_json _ _ _ _ Hdata Hbad). reflexivity. }
  split; [apply Hskip|].
  intros Hboundary. simpl read_loop. unfold process_chunk.
  rewrite <- (append_assoc (buffer st) c1 (bad ++ String JsString.newline c2)).
  rewrite <- (append_assoc (buffer st) c1 c2).
  rewrite (split_lines_app (buffer st ++ c1) (bad ++ String JsString.newline c2)).
  rewrite (split_lines_app (buffer st ++ c1) c2).
  rewrite Hboundary. simpl String.append.
  rewrite (split_lines_line bad c2 Hline).
  pose proof (split_lines_nonempty c2) as Hne.
  set (L := removelast (JsString.split_lines (buffer st ++ c1))).
  rewrite !removelast_app by (try discriminate; exact Hne).
  rewrite (removelast_cons_nonempty bad _ Hne).
  rewrite !last_app_nonempty by (try discriminate; exact Hne).
  rewrite (last_cons_nonempty bad "" _ Hne).
  rewrite Hskip. reflexivity.
Qed.

(** *** The buffer *)

Lemma process_line_set_buffer (onProgress : bool) (b : string)
    (st : LoopState) (eventType line : string) :
  process_line onProgress (set_buffer b st) eventType line =
  map_state (set_buffer b) (process_line onProgress st eventType line).
Proof.
  unfold process_line.
  destruct (JsString.startsWith line "event: "); [reflexivity|].
  destruct (JsString.startsWith line "data: " && JsString.truthy eventType);
    [|reflexivity].
  destruct (JSON_parse (JsString.slice 6 line)) as [data|]; [|reflexivity].
  destruct (String.eqb eventType "progress" && onProgress).
  - destruct (progress_event data); reflexivity.
  - destruct (String.eqb eventType "done"); [reflexivity|].
    destruct (String.eqb eventType "error"); reflexivity.
Qed.

Lemma process_lines_set_buffer (onProgress : bool) (b : string)
    (st : LoopState) (eventType : string) (lines : list string) :
  process_lines onProgress (set_buffer b st) eventType lines =
  map_state (set_buffer b) (process_lines onProgress st eventType lines).
Proof.
  revert st eventType.
  induction lines as [|l lines IH]; intros st eventType; simpl; [reflexivity|].
  rewrite process_line_set_buffer.
  destruct (process_line onProgress st eventType l) as [st' ev'|st' e]; simpl;
    [apply IH|reflexivity].
Qed.

Lemma map_state_map_state (f g : LoopState -> LoopState) (c : completion) :
  map_state f (map_state g c) = map_state (fun st => f (g st)) c.
Proof. destruct c; reflexivity. Qed.

(** After a read, the buffer is the piece that follows the last line feed
    of the text read so far; it holds no line feed. *)
Lemma process_chunk_buffer (onProgress : bool) (st : LoopState) (chunk : string) :
  buffer (state_of (process_chunk onProgress st chunk)) =
  last (JsString.split_lines (buffer st ++ chunk)) "".
Proof.
  unfold process_chunk. rewrite process_lines_set_buffer.
  destruct (process_lines onProgress st "" _); reflexivity.
Qed.

(** A chunk extended by text without a line feed is processed in the same
    way; the text only lengthens the buffer. *)
Lemma process_chunk_partial (onProgress : bool) (st : LoopState) (c p : string) :
  JsString.no_newline p ->
  process_chunk onProgress st (c ++ p) =
  map_state (fun s => set_buffer (buffer s ++ p) s) (process_chunk onProgress st c).
Proof.
  intros Hp. unfold process_chunk.
  rewrite <- append_assoc.
  destruct (split_lines_app_partial (buffer st ++ c) p Hp) as [-> ->].
  rewrite !process_lines_set_buffer, map_state_map_state.
  destruct (process_lines onProgress st "" _); reflexivity.
Qed.

(** Reads that bring no line feed process no line. *)
Lemma read_loop_partial (onProgress : bool) (st : LoopState)
    (tail : list string) (fin : ending) :
  JsString.no_newline (buffer st) ->
  JsString.no_newline (String.concat "" tail) ->
  read_loop onProgress st tail fin =
  read_loop onProgress (set_buffer (buffer st ++ String.concat "" tail) st) [] fin.
Proof.
  revert st. induction tail as [|q tail IH]; intros st Hb Ht.
  - simpl String.concat. rewrite append_empty_r. destruct st; reflexivity.
  - assert (Hq : JsString.no_newline q /\ JsString.no_newline (String.concat "" tail)).
    { destruct tail as [|q' tail']; simpl in Ht.
      - split; [exact Ht|apply no_newline_empty].
      - apply no_newline_app in Ht. exact Ht. }
    destruct Hq as [Hq Htail].
    assert (Hcat : String.concat "" (q :: tail) = (q ++ String.concat "" tail)%string).
    { destruct tail; simpl; [now rewrite append_empty_r|reflexivity]. }
    rewrite Hcat. cbn [read_loop]. unfold process_chunk.
    rewrite split_lines_no_newline by (apply no_newline_app; split; assumption).
    cbn [removelast last process_lines].
    rewrite IH; cbn [set_buffer buffer lastResult trace].
    + rewrite append_assoc. reflexivity.
    + apply no_newline_app; split; assumption.
    + exact Htail.
Qed.

Lemma read_loop_trailing_partial (onProgress : bool) (st : LoopState)
    (chunks : list string) (c p : string) (tail : list string) :
  JsString.no_newline (p ++ String.concat "" tail) ->
  let without := read_loop onProgress st (chunks ++ [c]) Closed in
  let with_partial :=
    read_loop onProgress st (chunks ++ (c ++ p)%string :: tail) Closed in
  snd with_partial = snd without
  /\ trace (fst with_partial) = trace (fst without)
  /\ lastResult (fst with_partial) = lastResult (fst without)
  /\ (snd without = None ->
      buffer (fst with_partial) =
      (buffer (fst without) ++ p ++ String.concat "" tail)%string).
Proof.
  intros Hno. apply no_newline_app in Hno as [Hp Htail]. cbv zeta.
  rewrite !read_loop_app.
  destruct (read_loop onProgress st chunks Closed) as [st' [e|]].
  - simpl. repeat split. discriminate.
  - cbn [read_loop]. rewrite (process_chunk_partial _ _ _ _ Hp).
    pose proof (process_chunk_buffer onProgress st' c) as Hbuf.
    destruct (process_chunk onProgress st' c) as [s1 ev|s1 e]; cbn [map_state].
    + cbn [state_of] in Hbuf.
      rewrite read_loop_partial; cbn [set_buffer buffer lastResult trace].
      * cbn [read_loop fst snd buffer lastResult trace].
        repeat split. intros _. apply append_assoc.
      * apply no_newline_app; split; [|exact Hp].
        rewrite Hbuf. apply split_lines_last_no_newline.
      * exact Htail.
    + cbn [fst snd set_buffer buffer lastResult trace].
      repeat split. discriminate.
Qed.

(** C9: an incomplete line at the end of the stream stays in the buffer and
    is never processed. When the content of the stream ends with text that
    holds no line feed ([p], at the end of a chunk, and any number of
    further chunks [tail]), [downloadInvoices] makes the same [onProgress]
    calls and settles in the same way as on the stream without that text;
    and the reader loop, when it reaches the end of the stream, leaves the
    same [lastResult] and has the text in its buffer, after what the buffer
    holds without it. *)
Theorem trailing_partial_line_is_discarded (onProgress : bool)
    (chunks : list string) (c p : string) (tail : list string)
    (ok : bool) (status : Z) (statusText : string) (json : option value) :
  JsString.no_newline (p ++ String.concat "" tail) ->
  let without := read_loop onProgress initial (chunks ++ [c]) Closed in
  let with_partial :=
    read_loop onProgress initial (chunks ++ (c ++ p)%string :: tail) Closed in
  downloadInvoices onProgress
    (mkResponse ok status statusText
       (Some (mkBody (chunks ++ (c ++ p)%string :: tail) Closed)) json) =
  downloadInvoices onProgress
    (mkResponse ok status statusText (Some (mkBody (chunks ++ [c]) Closed)) json)
  /\ lastResult (fst with_partial) = lastResult (fst without)
  /\ trace (fst with_partial) = trace (fst without)
  /\ (snd without = None ->
      snd with_partial = None
      /\ buffer (fst with_partial) =
         (buffer (fst without) ++ p ++ String.concat "" tail)%string).
Proof.
  intros Hno.
  destruct (read_loop_trailing_partial onProgress initial chunks c p tail Hno)
    as (Hexn & Htrace & Hres & Hbuf).
  cbv zeta in *. unfold downloadInvoices. cbn [body Api.chunks finish].
  destruct (read_loop onProgress initial (chunks ++ (c ++ p)%string :: tail) Closed)
    as [st2 e2].
  destruct (read_loop onProgress initial (chunks ++ [c]) Closed) as [st1 e1].
  cbn [fst snd] in *. subst e2. rewrite Htrace, Hres.
  repeat split; try reflexivity.
  - assumption.
  - apply Hbuf. assumption.
Qed.

(** *** The recorded result *)

Lemma last_done_app (tr : list effect) (ev : effect) :
  last_done (tr ++ [ev]) =
  match ev with
  | RecordDone data => Some data
  | OnProgress _ => last_done tr
  end.
Proof.
  induction tr as [|x tr IH]; simpl.
  - destruct ev; reflexivity.
  - rewrite IH. destruct x as [q|d]; [reflexivity|].
    destruct ev as [q'|d']; reflexivity.
Qed.

Lemma last_done_none (tr : list effect) :
  last_done tr = None <-> forall data, ~ In (RecordDone data) tr.
Proof.
  induction tr as [|x tr IH]; simpl.
  - split; [intros _ d []|reflexivity].
  - destruct x as [q|d].
    + rewrite IH. split.
      * intros H data [Hq|Hin]; [discriminate|exact (H data Hin)].
      * intros H data Hin. apply (H data). now right.
    + split.
      * destruct (last_done tr); discriminate.
      * intros H. exfalso. apply (H d). now left.
Qed.

Lemma process_line_result_recorded (onProgress : bool) (st : LoopState)
    (eventType line : string) :
  result_recorded st ->
  result_recorded (state_of (process_line onProgress st eventType line)).
Proof.
  intros Hst. unfold process_line.
  destruct (JsString.startsWith line "event: "); [exact Hst|].
  destruct (JsString.startsWith line "data: " && JsString.truthy eventType);
    [|exact Hst].
  destruct (JSON_parse (JsString.slice 6 line)) as [data|]; [|exact Hst].
  destruct (String.eqb eventType "progress" && onProgress).
  - destruct (progress_event data) as [q|e]; [|exact Hst].
    unfold result_recorded in *. cbn [state_of log lastResult trace].
    rewrite last_done_app. exact Hst.
  - destruct (String.eqb eventType "done").
    + unfold result_recorded. cbn [state_of log lastResult trace].
      rewrite last_done_app. reflexivity.
    + destruct (String.eqb eventType "error"); exact Hst.
Qed.

Lemma process_lines_result_recorded (onProgress : bool) (st : LoopState)
    (eventType : string) (lines : list string) :
  result_recorded st ->
  result_recorded (state_of (process_lines onProgress st eventType lines)).
Proof.
  revert st eventType.
  induction lines as [|l lines IH]; intros st eventType Hst; simpl; [exact Hst|].
  pose proof (process_line_result_recorded onProgress st eventType l Hst) as H.
  destruct (process_line onProgress st eventType l) as [st' ev'|st' e];
    [apply IH; exact H|exact H].
Qed.

Lemma read_loop_result_recorded (onProgress : bool) (st : LoopState)
    (chunks : list string) (fin : ending) :
  result_recorded st ->
  result_recorded (fst (read_loop onProgress st chunks fin)).
Proof.
  revert st.
  induction chunks as [|c chunks IH]; intros st Hst; simpl.
  - destruct fin; exact Hst.
  - assert (H : result_recorded (state_of (process_chunk onProgress st c))).
    { unfold process_chunk. apply process_lines_result_recorded. exact Hst. }
    destruct (process_chunk onProgress st c) as [st' ev'|st' e];
      [apply IH; exact H|exact H].
Qed.

(** C5: when the stream reaches its end and no [done] payload was recorded
    on the way, [downloadInvoices] throws the error
    [Téléchargement terminé sans résultat] instead of returning; and
    whenever it returns, the value returned is the payload of the last
    [done] event recorded. *)
Theorem no_done_no_result (onProgress : bool) (response : Response) (b : Body) :
  body response = Some b ->
  (forall st,
      read_loop onProgress initial (chunks b) (finish b) = (st, None) ->
      (forall data, ~ In (RecordDone data) (trace st)) ->
      downloadInvoices onProgress response =
      (trace st, Throw (new_Error "Téléchargement terminé sans résultat")))
  /\ (forall tr r,
         downloadInvoices onProgress response = (tr, Return r) ->
         last_done tr = Some r).
Proof.
  intros Hbody.
  pose proof (read_loop_result_recorded onProgress initial (chunks b) (finish b)
                eq_refl) as Hrec.
  unfold downloadInvoices. rewrite Hbody.
  destruct (read_loop onProgress initial (chunks b) (finish b)) as [st' e'].
  cbn [fst] in Hrec. unfold result_recorded in Hrec. split.
  - intros st Hst Hnone. injection Hst as -> ->.
    apply last_done_none in Hnone. rewrite Hnone in Hrec.
    rewrite Hrec. reflexivity.
  - intros tr r. destruct e' as [e|]; [discriminate|].
    destruct (truthy (lastResult st')) eqn:Ht; cbn [negb]; [|discriminate].
    intros H. injection H as <- <-.
    destruct (last_done (trace st')) as [d|]; [now rewrite Hrec|].
    rewrite Hrec in Ht. discriminate.
Qed.

(** *** Error events and failed responses *)

(** C2, amended: an [error] event makes the operation fail at once with an
    error that carries the detail text ([Erreur] when the payload has
    none), and the error is flagged [requiresOtp] exactly when the payload's
    [requires_otp] is truthy or the detail text matches [2FA] or [OTP]
    without regard to case. The text is consulted whenever the flag is not
    true, be it absent or [false]. *)
Theorem error_event_is_classified (onProgress : bool) (st : LoopState)
    (line : string) (members : list (string * value)) :
  JsString.startsWith line "data: " = true ->
  JSON_parse (JsString.slice 6 line) = Some (JObj members) ->
  let d := lookup "detail" members in
  let r := lookup "requires_otp" members in
  let text := if truthy_val d then toString (nullish_or d JNull) else "Erreur" in
  exists flag,
    process_line onProgress st "error" line =
    Abrupt st (mkError "Error" text (Some flag))
    /\ truthy flag = truthy_val r || mentions_otp text
    /\ (r = Some (JBool true) -> flag = JBool true)
    /\ (r = None \/ r = Some (JBool false) -> flag = JBool (mentions_otp text)).
Proof.
  intros Hdata Hparse d r text.
  assert (Hline : process_line onProgress st "error" line =
                  Abrupt st (error_event (JObj members))).
  { unfold process_line.
    rewrite (data_line_is_no_event_line line Hdata), Hdata, Hparse.
    reflexivity. }
  rewrite Hline. unfold error_event. cbn [get]. fold d r.
  assert (Htext : toString (if truthy_val d then nullish_or d JNull else JStr "Erreur")
                  = text).
  { unfold text. destruct (truthy_val d); reflexivity. }
  rewrite Htext. unfold set_requiresOtp, new_Error. cbn [name message].
  destruct (truthy_val r) eqn:Hr.
  - exists (nullish_or r JNull). repeat split.
    + destruct r as [[]|]; simpl in *; try discriminate; exact Hr.
    + intros ->. reflexivity.
    + intros [->| ->]; discriminate.
  - exists (JBool (mentions_otp text)). repeat split.
    intros ->. discriminate.
Qed.

(** C6: a failed response without a body makes [downloadInvoices] throw
    before any read, with no [onProgress] call: for status 401 an error
    flagged [requiresOtp = true], for any other status a plain error; in
    both cases the message is the [detail] that the server sent, or the
    status text when it sent none. The outcome of [response.json()] is a
    rejection (a response without a body has nothing to parse) or any
    value but [null], on which the read of [detail] itself would throw. *)
Theorem failed_response_without_body (onProgress : bool) (response : Response) :
  ok response = false ->
  body response = None ->
  json response <> Some JNull ->
  let d := match json response with
           | Some (JObj members) => lookup "detail" members
           | _ => None
           end in
  let detail :=
    if truthy_val d then toString (nullish_or d JNull)
    else statusText response in
  (status response = 401%Z ->
   downloadInvoices onProgress response =
   ([], Throw (mkError "Error" detail (Some (JBool true)))))
  /\ (status response <> 401%Z ->
      downloadInvoices onProgress response =
      ([], Throw (mkError "Error" detail None))).
Proof.
  intros Hok Hbody Hjson d detail.
  unfold downloadInvoices. rewrite Hbody, Hok. cbn [negb].
  unfold reject_response.
  assert (Hget : get (match json response with Some v => v | None => JObj [] end)
                   "detail" = inl d).
  { unfold d. destruct (json response) as [[]|]; try reflexivity.
    contradiction Hjson. reflexivity. }
  rewrite Hget. fold detail. split.
  - intros ->. reflexivity.
  - intros Hs. apply Z.eqb_neq in Hs. rewrite Hs. reflexivity.
Qed.

End ReaderLoop.

(** *** Examples on the sample platform *)

Section Examples.

Import Json Api Sample.

(** Three progress events and a [done] event: three [onProgress] calls,
    then the [done] payload. *)
Example three_ticks_then_done :
  let tick := ("event: progress" ++ nl ++ "data: " ++ progress_text ++ nl)%string in
  let p := OnProgress (mkDownloadProgress (JNum 1%float) (JNum 2%float) (JStr "")) in
  downloadInvoices true
    (streamed [(tick ++ tick)%string;
               (tick ++ "event: done" ++ nl ++ "data: " ++ done_text ++ nl)%string])
  = ([p; p; p; RecordDone (JObj [("count", JNum 1%float)])],
     Return (JObj [("count", JNum 1%float)])).
Proof. vm_compute. reflexivity. Qed.

(** An [error] event without flag whose detail mentions 2FA. *)
Example sniffed_otp :
  downloadInvoices true
    (streamed [("event: error" ++ nl ++ "data: " ++ sniffed_otp_text ++ nl)%string])
  = ([], Throw (mkError "Error" "2FA code expired" (Some (JBool true)))).
Proof. vm_compute. reflexivity. Qed.

(** A payload that is the JSON text [null] makes the property read throw. *)
Example null_payload :
  downloadInvoices true
    (streamed [("event: error" ++ nl ++ "data: null" ++ nl)%string])
  = ([], Throw (mkError "TypeError"
                  "Cannot read properties of null (reading 'detail')" None)).
Proof. vm_compute. reflexivity. Qed.

(** C1 fails on the code. The two lines [event: done] and [data: {}] give
    the result [{}] when they arrive in one chunk, and also when the chunk
    boundary falls inside the first line; when the boundary falls between
    the two lines, the event type is forgotten ([eventType] is declared
    inside the [while] body, so each read starts again from [''], while
    [buffer] is declared outside and survives), the [data:] line is
    ignored and the operation fails for want of a result. *)
Theorem event_type_lost_between_chunks :
  downloadInvoices true
    (streamed [("event: done" ++ nl ++ "data: {}" ++ nl)%string])
  = ([RecordDone (JObj [])], Return (JObj []))
  /\ downloadInvoices true
       (streamed ["event: do"; ("ne" ++ nl ++ "data: {}" ++ nl)%string])
     = ([RecordDone (JObj [])], Return (JObj []))
  /\ downloadInvoices true
       (streamed [("event: done" ++ nl)%string; ("data: {}" ++ nl)%string])
     = ([], Throw (new_Error "Téléchargement terminé sans résultat")).
Proof. repeat split; vm_compute; reflexivity. Qed.

(** C2, as stated, fails: a payload with [requires_otp: false] whose detail
    mentions OTP is thrown with [requiresOtp = true]. *)
Lemma explicit_false_does_not_win :
  error_event
    (JObj [("detail", JStr "OTP expired"); ("requires_otp", JBool false)])
  = mkError "Error" "OTP expired" (Some (JBool true))
  /\ downloadInvoices true
       (streamed [("event: error" ++ nl ++ "data: " ++ refused_otp_text ++ nl)%string])
     = ([], Throw (mkError "Error" "OTP expired" (Some (JBool true)))).
Proof. split; vm_compute; reflexivity. Qed.

End Examples.

(** ** The session *)

Section SessionFacts.

Import Json App.

Context {platform : Platform}.

Lemma abort_length (c : nat) (store : list bool) :
  List.length (abort c store) = List.length store.
Proof.
  revert c. induction store as [|b store IH]; intros [|c]; simpl;
    try reflexivity.
  now rewrite IH.
Qed.

Lemma aborted_abort_same (c : nat) (store : list bool) :
  c < List.length store -> aborted c (abort c store) = true.
Proof.
  unfold aborted. revert c.
  induction store as [|b store IH]; intros [|c] H; simpl in *;
    try lia; try reflexivity.
  apply IH. lia.
Qed.

Lemma aborted_abort_other (c c' : nat) (store : list bool) :
  c' <> c -> aborted c' (abort c store) = aborted c' store.
Proof.
  unfold aborted. revert c c'.
  induction store as [|b store IH]; intros [|c] [|c'] H; simpl;
    try reflexivity; try contradiction.
  apply IH. congruence.
Qed.

Lemma aborted_abort_mono (c c' : nat) (store : list bool) :
  aborted c' store = true -> aborted c' (abort c store) = true.
Proof.
  intros H. destruct (Nat.eq_dec c' c) as [->|Hne].
  - apply aborted_abort_same.
    destruct (Nat.lt_ge_cases c (List.length store)) as [Hlt|Hge]; [exact Hlt|].
    unfold aborted in H. rewrite nth_overflow in H by exact Hge. discriminate.
  - now rewrite aborted_abort_other.
Qed.

Lemma aborted_new_controller (c : nat) (store : list bool) :
  aborted c (store ++ [false]) = aborted c store.
Proof.
  unfold aborted.
  destruct (Nat.lt_ge_cases c (List.length store)) as [Hlt|Hge].
  - now apply app_nth1.
  - rewrite (nth_overflow store) by exact Hge.
    rewrite app_nth2 by exact Hge.
    destruct (c - List.length store) as [|[|n]]; reflexivity.
Qed.

(** What [handleDownload] does to the controllers before it awaits. *)
Lemma handleDownload_begin_controllers (params : DownloadParams) (s : Session) :
  let store := match abortControllerRef s with
               | Some previous => abort previous (controllers s)
               | None => controllers s
               end in
  handleDownload_begin params s
  = (fst (handleDownload_begin params s), List.length (controllers s))
  /\ abortControllerRef (fst (handleDownload_begin params s))
     = Some (List.length (controllers s))
  /\ controllers (fst (handleDownload_begin params s)) = store ++ [false]
  /\ settled (fst (handleDownload_begin params s)) = settled s.
Proof.
  unfold handleDownload_begin.
  destruct (abortControllerRef s) as [previous|]; cbn;
    rewrite ?abort_length; repeat split.
Qed.

Lemma single_flight_initial : single_flight initial.
Proof.
  split.
  - intros c H. discriminate.
  - intros c [Hlt _]. simpl in Hlt. lia.
Qed.

Lemma single_flight_begin (params : DownloadParams) (s : Session) :
  single_flight s -> single_flight (fst (handleDownload_begin params s)).
Proof.
  intros [Href Hlive].
  destruct (handleDownload_begin_controllers params s) as (_ & Hr & Hc & Hs).
  cbv zeta in Hc. split.
  - intros c Hc'. rewrite Hr in Hc'. injection Hc' as <-.
    rewrite Hc, length_app. simpl.
    destruct (abortControllerRef s); rewrite ?abort_length; lia.
  - intros c (Hlt & Hab & Hset). rewrite Hr. f_equal.
    rewrite Hc in Hlt, Hab. rewrite Hs in Hset.
    rewrite aborted_new_controller in Hab.
    rewrite length_app in Hlt. simpl in Hlt.
    destruct (abortControllerRef s) as [previous|] eqn:Hprev.
    + rewrite abort_length in Hlt.
      destruct (Nat.eq_dec c (List.length (controllers s))) as [->|Hne];
        [reflexivity|].
      exfalso.
      destruct (Nat.eq_dec c previous) as [->|Hne'].
      * rewrite aborted_abort_same in Hab by (apply Href; reflexivity).
        discriminate.
      * rewrite aborted_abort_other in Hab by exact Hne'.
        assert (Hl : live s c) by (repeat split; [lia|exact Hab|exact Hset]).
        apply Hlive in Hl. congruence.
    + destruct (Nat.eq_dec c (List.length (controllers s))) as [->|Hne];
        [reflexivity|].
      exfalso.
      assert (Hl : live s c) by (repeat split; [lia|exact Hab|exact Hset]).
      apply Hlive in Hl. discriminate.
Qed.

Lemma single_flight_end (c : nat) (params : DownloadParams)
    (out : Api.outcome) (s : Session) :
  single_flight s -> single_flight (handleDownload_end c params out s).
Proof.
  intros [Href Hlive].
  assert (H : forall s0,
             abortControllerRef s0 = abortControllerRef s ->
             controllers s0 = controllers s ->
             settled s0 = settled s ->
             single_flight (handleDownload_finally c s0)).
  { intros s0 Hr Hc Hs. unfold handleDownload_finally, single_flight, live.
    cbn [abortControllerRef controllers settled]. rewrite Hr, Hc, Hs. split.
    - intros c0 H0. apply Href.
      destruct (abortControllerRef s) as [c1|]; [|discriminate].
      destruct (Nat.eqb c1 c); [discriminate|exact H0].
    - intros c0 (Hlt & Hab & Hset).
      assert (Hl : live s c0).
      { repeat split; [exact Hlt|exact Hab|].
        intros Hin. apply Hset. now right. }
      apply Hlive in Hl. rewrite Hl.
      destruct (Nat.eqb_spec c0 c) as [->|Hne]; [|reflexivity].
      exfalso. apply Hset. now left. }
  unfold handleDownload_end.
  destruct out as [response|err]; [apply H; reflexivity|].
  destruct (String.eqb (Api.name err) "AbortError"); [apply H; reflexivity|].
  destruct (truthy_val (Api.requiresOtp err)); [apply H; reflexivity|].
  destruct (JsString.includes (Api.message err) "Failed to fetch");
    [apply H; reflexivity|].
  destruct (JsString.includes (Api.message err) "timeout"); apply H; reflexivity.
Qed.

Lemma single_flight_cancel (s : Session) :
  single_flight s -> single_flight (handleCancelDownload s).
Proof.
  intros Hs. unfold handleCancelDownload.
  destruct (abortControllerRef s) as [c|] eqn:Hc; [|exact Hs].
  destruct Hs as [Href Hlive].
  unfold single_flight, live. cbn [abortControllerRef controllers settled].
  rewrite abort_length. split.
  - intros c0 H0. apply Href. rewrite Hc. exact H0.
  - intros c0 (Hlt & Hab & Hset).
    destruct (Nat.eq_dec c0 c) as [->|Hne]; [reflexivity|].
    rewrite aborted_abort_other in Hab by exact Hne.
    assert (Hl : live s c0) by (repeat split; assumption).
    apply Hlive in Hl. congruence.
Qed.

(** A step that leaves the ref, the controllers and the settled downloads
    alone keeps the invariant. *)
Lemma single_flight_frame (s s' : Session) :
  abortControllerRef s' = abortControllerRef s ->
  controllers s' = controllers s ->
  settled s' = settled s ->
  single_flight s -> single_flight s'.
Proof.
  unfold single_flight, live. intros -> -> ->. tauto.
Qed.

Lemma single_flight_step (s s' : Session) :
  step s s' -> single_flight s -> single_flight s'.
Proof.
  intros Hstep Hs. destruct Hstep.
  - apply (single_flight_frame s); try exact Hs;
      destruct answer as [[text []]|[]]; reflexivity.
  - apply single_flight_begin. exact Hs.
  - apply (single_flight_frame s); try exact Hs; reflexivity.
  - apply single_flight_end. exact Hs.
  - apply single_flight_cancel. exact Hs.
  - apply (single_flight_frame s); try exact Hs; reflexivity.
  - apply (single_flight_frame s); try exact Hs;
      unfold handleSubmitOTP_begin;
      destruct (negb (JsString.truthy (otpCode s))
                || (String.length (otpCode s) <? 4)%nat); reflexivity.
  - unfold otp_accepted. destruct pending as [params|].
    + match goal with
      | |- context [handleDownload_begin params ?s1] =>
          pose proof (single_flight_begin params s1) as Hb;
          destruct (handleDownload_begin params s1) as [s2 c] eqn:E
      end.
      cbn [fst] in *. apply Hb.
      apply (single_flight_frame s); try exact Hs; reflexivity.
    + apply (single_flight_frame s); try exact Hs; reflexivity.
  - apply (single_flight_frame s); try exact Hs; reflexivity.
  - apply (single_flight_frame s); try exact Hs; reflexivity.
  - apply (single_flight_frame s); try exact Hs; reflexivity.
  - apply (single_flight_frame s); try exact Hs; reflexivity.
  - apply (single_flight_frame s); try exact Hs; reflexivity.
Qed.

Lemma reachable_single_flight (s : Session) :
  reachable s -> single_flight s.
Proof.
  induction 1 as [|s s' _ IH Hstep].
  - apply single_flight_initial.
  - exact (single_flight_step s s' Hstep IH).
Qed.

Lemma settled_bound_begin (params : DownloadParams) (s : Session) :
  settled_bound s -> settled_bound (fst (handleDownload_begin params s)).
Proof.
  intros IH c Hin.
  destruct (handleDownload_begin_controllers params s) as (_ & _ & Hc & Hs).
  cbv zeta in Hc. rewrite Hc, length_app. rewrite Hs in Hin.
  apply IH in Hin. simpl.
  destruct (abortControllerRef s); rewrite ?abort_length; lia.
Qed.

Lemma settled_bound_frame (s s' : Session) :
  controllers s' = controllers s ->
  settled s' = settled s ->
  settled_bound s -> settled_bound s'.
Proof. unfold settled_bound. intros -> ->. tauto. Qed.

Lemma settled_bound_step (s s' : Session) :
  step s s' -> settled_bound s -> settled_bound s'.
Proof.
  intros Hstep IH.
  destruct Hstep as [answer s|params s|p s|c params out s Hlt|s|code s|s
                    |pending s|response s|err s|s|s|s].
  - apply (settled_bound_frame s); try exact IH;
      destruct answer as [[text []]|[]]; reflexivity.
  - apply settled_bound_begin. exact IH.
  - apply (settled_bound_frame s); try exact IH; reflexivity.
  - assert (Hfin : forall s2,
               controllers s2 = controllers s ->
               settled s2 = settled s ->
               settled_bound (handleDownload_finally c s2)).
    { intros s2 Hc2 Hs2 c0. unfold handleDownload_finally.
      cbn [settled controllers]. rewrite Hc2, Hs2.
      intros [<-|Hin]; [assumption|now apply IH]. }
    unfold handleDownload_end.
    destruct out as [response|err]; [apply Hfin; reflexivity|].
    destruct (String.eqb (Api.name err) "AbortError");
      [apply Hfin; reflexivity|].
    destruct (truthy_val (Api.requiresOtp err)); [apply Hfin; reflexivity|].
    destruct (JsString.includes (Api.message err) "Failed to fetch");
      [apply Hfin; reflexivity|].
    destruct (JsString.includes (Api.message err) "timeout");
      apply Hfin; reflexivity.
  - unfold handleCancelDownload.
    destruct (abortControllerRef s); [|exact IH].
    intros c0 Hin. cbn [settled controllers] in *. rewrite abort_length.
    now apply IH.
  - apply (settled_bound_frame s); try exact IH; reflexivity.
  - apply (settled_bound_frame s); try exact IH;
      unfold handleSubmitOTP_begin;
      destruct (negb (JsString.truthy (otpCode s))
                || (String.length (otpCode s) <? 4)%nat); reflexivity.
  - unfold otp_accepted. destruct pending as [params|].
    + match goal with
      | |- context [handleDownload_begin params ?s1] =>
          pose proof (settled_bound_begin params s1) as Hb;
          destruct (handleDownload_begin params s1) as [s2 c] eqn:E
      end.
      cbn [fst] in *. apply Hb.
      apply (settled_bound_frame s); try exact IH; reflexivity.
    + apply (settled_bound_frame s); try exact IH; reflexivity.
  - apply (settled_bound_frame s); try exact IH; reflexivity.
  - apply (settled_bound_frame s); try exact IH; reflexivity.
  - apply (settled_bound_frame s); try exact IH; reflexivity.
  - apply (settled_bound_frame s); try exact IH; reflexivity.
  - apply (settled_bound_frame s); try exact IH; reflexivity.
Qed.

Lemma reachable_settled_bound (s : Session) :
  reachable s -> settled_bound s.
Proof.
  induction 1 as [|s s' _ IH Hstep].
  - intros c [].
  - exact (settled_bound_step s s' Hstep IH).
Qed.

(** C4: in every reachable session, [handleDownload] first aborts the
    controller that the ref holds, if any, and then creates a fresh
    controller (distinct from every earlier one, not aborted), stores it in
    the ref and sends the request with its signal; no signal is ever
    un-aborted. After that the new download is the only live one: every
    earlier download is aborted or has ended. *)
Theorem new_download_aborts_previous (params : DownloadParams) (s : Session) :
  reachable s ->
  let s' := fst (handleDownload_begin params s) in
  let controller := snd (handleDownload_begin params s) in
  (forall previous,
      abortControllerRef s = Some previous ->
      aborted previous (controllers s') = true /\ previous <> controller)
  /\ controller = List.length (controllers s)
  /\ abortControllerRef s' = Some controller
  /\ aborted controller (controllers s') = false
  /\ (forall c, aborted c (controllers s) = true ->
                aborted c (controllers s') = true)
  /\ network s' = network s ++ [PostDownload params controller]
  /\ (forall c, live s' c -> c = controller)
  /\ live s' controller.
Proof.
  intros Hreach. pose proof (reachable_single_flight s Hreach) as Hinv.
  pose proof (single_flight_begin params s Hinv) as [_ Hlive'].
  destruct Hinv as [Href Hlive].
  destruct (handleDownload_begin_controllers params s) as (Hpair & Hr & Hc & Hs).
  cbv zeta in *.
  assert (Hsnd : snd (handleDownload_begin params s) = List.length (controllers s))
    by (rewrite Hpair; reflexivity).
  rewrite !Hsnd. clear Hpair Hsnd.
  assert (Hfresh : aborted (List.length (controllers s))
                     (controllers (fst (handleDownload_begin params s))) = false).
  { rewrite Hc. unfold aborted. rewrite app_nth2;
      destruct (abortControllerRef s); rewrite ?abort_length;
      try rewrite Nat.sub_diag; try reflexivity; lia. }
  assert (Hnew : live (fst (handleDownload_begin params s))
                   (List.length (controllers s))).
  { repeat split.
    - rewrite Hc, length_app. simpl.
      destruct (abortControllerRef s); rewrite ?abort_length; lia.
    - exact Hfresh.
    - rewrite Hs. intros Hin.
      apply (reachable_settled_bound s Hreach) in Hin. lia. }
  split; [|split; [|split; [|split; [|split; [|split; [|split]]]]]].
  - intros previous H. split.
    + rewrite Hc, aborted_new_controller, H. apply aborted_abort_same.
      apply Href. exact H.
    + specialize (Href previous H). lia.
  - reflexivity.
  - exact Hr.
  - exact Hfresh.
  - intros c Hab. rewrite Hc, aborted_new_controller.
    destruct (abortControllerRef s); [apply aborted_abort_mono|]; exact Hab.
  - unfold handleDownload_begin. cbn. destruct (abortControllerRef s);
      rewrite ?abort_length; reflexivity.
  - intros c H. apply Hlive' in H. rewrite Hr in H. congruence.
  - exact Hnew.
Qed.

(** C7: a code of fewer than 4 characters, the empty code included, only
    sets the validation message: [handleSubmitOTP] ends there, whatever the
    network would have answered, and no request is sent. A code of 4
    characters or more is posted to [submit-otp]. *)
Theorem short_code_is_refused_locally (s : Session) :
  (String.length (otpCode s) < 4 ->
   forall reply run,
     handleSubmitOTP reply run s =
     setOtpError (Some "Le code doit contenir au moins 4 caractères") s
     /\ network (handleSubmitOTP reply run s) = network s)
  /\ (4 <= String.length (otpCode s) ->
      snd (handleSubmitOTP_begin s) = Some (otpCode s)
      /\ network (fst (handleSubmitOTP_begin s)) =
         network s ++ [PostSubmitOtp (otpCode s)]).
Proof.
  unfold handleSubmitOTP, handleSubmitOTP_begin. split.
  - intros Hlen reply run.
    apply Nat.ltb_lt in Hlen. rewrite Hlen, orb_true_r. split; reflexivity.
  - intros Hlen.
    assert (Ht : JsString.truthy (otpCode s) = true)
      by (destruct (otpCode s); [simpl in Hlen; lia|reflexivity]).
    apply Nat.ltb_ge in Hlen. rewrite Hlen, Ht. split; reflexivity.
Qed.

(** When a download started from the form fails with an error flagged
    [requiresOtp], its params become the pending download. *)
Lemma otp_failure_stores_params (params : DownloadParams)
    (tr : list Api.effect) (err : Api.exn) (s : Session) :
  String.eqb (Api.name err) "AbortError" = false ->
  truthy_val (Api.requiresOtp err) = true ->
  pendingDownload (handleDownload params (tr, Api.Throw err) s) = Some params
  /\ requiresOTP (handleDownload params (tr, Api.Throw err) s) = true.
Proof.
  intros Hname Hotp. unfold handleDownload.
  destruct (handleDownload_begin params s) as [s1 c].
  unfold handleDownload_end. cbn [snd]. rewrite Hname, Hotp.
  split; reflexivity.
Qed.

(** An accepted code re-sends the pending download, with its params as
    they are. *)
Lemma accepted_code_resumes_pending (params : DownloadParams)
    (response : OTPResponse) (run : list Api.effect * Api.outcome) (s : Session) :
  pendingDownload s = Some params ->
  4 <= String.length (otpCode s) ->
  success response = true ->
  requires_otp response = false ->
  exists controller,
    network (handleSubmitOTP (inl response) run s) =
    network s ++ [PostSubmitOtp (otpCode s); PostDownload params controller].
Proof.
  intros Hpend Hlen Hok Hno. unfold handleSubmitOTP, handleSubmitOTP_begin.
  assert (Ht : JsString.truthy (otpCode s) = true)
    by (destruct (otpCode s); [simpl in Hlen; lia|reflexivity]).
  apply Nat.ltb_ge in Hlen. rewrite Hlen, Ht, Hok, Hno, Hpend.
  cbn [negb orb andb otp_accepted].
  match goal with
  | |- context [handleDownload_begin params ?s1] =>
      assert (Hnet : network (fst (handleDownload_begin params s1)) =
                     network s1 ++ [PostDownload params
                                      (snd (handleDownload_begin params s1))])
        by (unfold handleDownload_begin; reflexivity);
      destruct (handleDownload_begin params s1) as [s2 c] eqn:E
  end.
  exists c. cbn [fst snd] in Hnet.
  assert (Hfold : forall l st,
             network (fold_left (fun st ev => on_effect ev st) l st) = network st).
  { induction l as [|ev l IH]; intros st; simpl; [reflexivity|].
    rewrite IH. destruct ev; reflexivity. }
  assert (Hend : forall c0 p out st,
             network (handleDownload_end c0 p out st) = network st).
  { intros c0 p out st. unfold handleDownload_end.
    destruct out as [r|err]; [reflexivity|].
    destruct (String.eqb (Api.name err) "AbortError"); [reflexivity|].
    destruct (truthy_val (Api.requiresOtp err)); [reflexivity|].
    destruct (JsString.includes (Api.message err) "Failed to fetch");
      [reflexivity|].
    destruct (JsString.includes (Api.message err) "timeout"); reflexivity. }
  cbn [setLoading setPendingDownload network].
  rewrite Hend, Hfold, Hnet. cbn [network setLoading setOtpError].
  rewrite <- app_assoc. reflexivity.
Qed.

End SessionFacts.

(** *** A second challenge *)

Section Scenario.

Import Json App Sample.

(** C3 fails on the code when the backend asks for a code twice. The first
    download of [params_2024] fails with an error flagged [requiresOtp]:
    the params are stored. The code is accepted and the download is sent
    again with the same params; it fails again with an error flagged
    [requiresOtp]. [handleDownload] stores the params once more, but
    [handleSubmitOTP], which awaited it, then clears the pending download:
    the session asks for a code and has nothing to resume. The next
    accepted code sends no download. *)
Theorem pending_lost_on_second_challenge :
  let failed : list Api.effect * Api.outcome := ([], Api.Throw otp_required) in
  let s1 := handleDownload params_2024 failed App.initial in
  let s2 := handleSubmitOTP (inl code_accepted) failed (setOtpCode "123456" s1) in
  let s3 := handleSubmitOTP (inl code_accepted) failed (setOtpCode "654321" s2) in
  (pendingDownload s1 = Some params_2024 /\ requiresOTP s1 = true)
  /\ network s2 = [PostDownload params_2024 0; PostSubmitOtp "123456";
                   PostDownload params_2024 1]
  /\ (requiresOTP s2 = true /\ pendingDownload s2 = None)
  /\ network s3 = network s2 ++ [PostSubmitOtp "654321"]
  /\ status s3 = "Code OTP accepté".
Proof. vm_compute. repeat split. Qed.

End Scenario.

(** ** The theorems at work on concrete inputs *)

Section Instances.

Import Json Api Sample.

Ltac no_line_feed :=
  let c := fresh "c" in
  let H := fresh "H" in
  intros c H; cbn in H;
  repeat (destruct H as [<-|H]; [discriminate|]); destruct H.

(** A progress event, a corrupt [data:] line and a second progress event:
    the corrupt line changes nothing. *)
Lemma malformed_payload_is_skipped_witness :
  let bad := "data: {oops" in
  let good := ("data: " ++ progress_text)%string in
  let c1 := ("event: progress" ++ nl ++ good ++ nl)%string in
  let c2 := (good ++ nl)%string in
  (JsString.startsWith bad "data: " = true
   /\ JsString.no_newline bad
   /\ JSON_parse (JsString.slice 6 bad) = None)
  /\ process_lines true initial "progress" ([good] ++ bad :: [good]) =
     process_lines true initial "progress" ([good] ++ [good])
  /\ (last (JsString.split_lines (buffer initial ++ c1)) "" = "" ->
      read_loop true initial
        ((c1 ++ bad ++ String JsString.newline c2)%string :: []) Closed =
      read_loop true initial ((c1 ++ c2)%string :: []) Closed).
Proof.
  cbv zeta.
  assert (H1 : JsString.startsWith "data: {oops" "data: " = true) by reflexivity.
  assert (H2 : JsString.no_newline "data: {oops") by no_line_feed.
  assert (H3 : JSON_parse (JsString.slice 6 "data: {oops") = None) by reflexivity.
  split; [repeat split; assumption|].
  exact (malformed_payload_is_skipped true initial "progress" "data: {oops"
           [("data: " ++ progress_text)%string]
           [("data: " ++ progress_text)%string]
           ("event: progress" ++ nl ++ ("data: " ++ progress_text) ++ nl)%string
           (("data: " ++ progress_text) ++ nl)%string [] Closed H1 H2 H3).
Defined.

(** A stream that ends in the middle of a [data:] line. *)
Lemma trailing_partial_line_is_discarded_witness :
  let c := ("event: progress" ++ nl ++ "data: " ++ progress_text ++ nl)%string in
  let p := "event: do" in
  let tail := ["ne"] in
  JsString.no_newline (p ++ String.concat "" tail)
  /\ downloadInvoices true
       (mkResponse true 200 "OK" (Some (mkBody ([] ++ (c ++ p)%string :: tail) Closed)) None)
     = downloadInvoices true
         (mkResponse true 200 "OK" (Some (mkBody ([] ++ [c]) Closed)) None)
  /\ buffer (fst (read_loop true initial ([] ++ (c ++ p)%string :: tail) Closed))
     = "event: done".
Proof.
  cbv zeta.
  assert (H : JsString.no_newline ("event: do" ++ String.concat "" ["ne"]))
    by no_line_feed.
  split; [exact H|].
  destruct (trailing_partial_line_is_discarded true []
              ("event: progress" ++ nl ++ "data: " ++ progress_text ++ nl)%string
              "event: do" ["ne"] true 200 "OK" None H)
    as (Hsame & _ & _ & Hbuf).
  split; [exact Hsame|].
  destruct (Hbuf eq_refl) as [_ ->]. reflexivity.
Defined.

(** A stream of one progress event and no [done] event. *)
Lemma no_done_no_result_witness :
  let response :=
    streamed [("event: progress" ++ nl ++ "data: " ++ progress_text ++ nl)%string] in
  let progress :=
    OnProgress (mkDownloadProgress (JNum 1%float) (JNum 2%float) (JStr "")) in
  downloadInvoices true response =
  ([progress], Throw (new_Error "Téléchargement terminé sans résultat")).
Proof.
  cbv zeta.
  pose (b := mkBody [("event: progress" ++ nl ++ "data: " ++ progress_text ++ nl)%string]
               Closed).
  destruct (no_done_no_result true (streamed (chunks b)) b eq_refl) as [Hnone _].
  refine (Hnone (mkLoopState "" JNull
                   [OnProgress (mkDownloadProgress (JNum 1%float) (JNum 2%float)
                                  (JStr ""))]) eq_refl _).
  intros data [H|[]]. discriminate.
Defined.

(** A 401 without body and without JSON: the status text is the message. *)
Lemma failed_response_without_body_witness :
  let response := mkResponse false 401 "Unauthorized" None None in
  (ok response = false /\ body response = None /\ json response <> Some JNull)
  /\ downloadInvoices true response =
     ([], Throw (mkError "Error" "Unauthorized" (Some (JBool true)))).
Proof.
  cbv zeta.
  assert (H : json (mkResponse false 401 "Unauthorized" None None) <> Some JNull)
    by discriminate.
  split; [repeat split; exact H|].
  destruct (failed_response_without_body true
              (mkResponse false 401 "Unauthorized" None None) eq_refl eq_refl H)
    as [H401 _].
  exact (H401 eq_refl).
Defined.

(** An [error] event without a flag whose detail mentions 2FA. *)
Lemma error_event_is_classified_witness :
  let line := ("data: " ++ sniffed_otp_text)%string in
  let members := [("detail", JStr "2FA code expired")] in
  (JsString.startsWith line "data: " = true
   /\ JSON_parse (JsString.slice 6 line) = Some (JObj members))
  /\ process_line true initial "error" line =
     Abrupt initial (mkError "Error" "2FA code expired" (Some (JBool true))).
Proof.
  cbv zeta.
  assert (H1 : JsString.startsWith ("data: " ++ sniffed_otp_text) "data: " = true)
    by reflexivity.
  assert (H2 : JSON_parse (JsString.slice 6 ("data: " ++ sniffed_otp_text)) =
               Some (JObj [("detail", JStr "2FA code expired")]))
    by reflexivity.
  split; [split; assumption|].
  destruct (error_event_is_classified true initial
              ("data: " ++ sniffed_otp_text)%string
              [("detail", JStr "2FA code expired")] H1 H2)
    as (flag & Hline & _ & _ & Hsniff).
  rewrite Hline, (Hsniff (or_introl eq_refl)). reflexivity.
Defined.

(** A download is in flight when the form starts another one. *)
Lemma new_download_aborts_previous_witness :
  let s := fst (App.handleDownload_begin params_2024 App.initial) in
  let s' := fst (App.handleDownload_begin params_2024 s) in
  App.reachable s
  /\ App.abortControllerRef s = Some 0
  /\ App.aborted 0 (App.controllers s') = true
  /\ App.abortControllerRef s' = Some 1
  /\ App.aborted 1 (App.controllers s') = false
  /\ (forall c, App.live s' c -> c = 1).
Proof.
  cbv zeta.
  assert (H : App.reachable (fst (App.handleDownload_begin params_2024 App.initial))).
  { apply (App.reachable_step App.initial).
    - apply App.reachable_initial.
    - apply App.step_download_begin. }
  destruct (new_download_aborts_previous params_2024
              (fst (App.handleDownload_begin params_2024 App.initial)) H)
    as (Hprev & _ & Href & Hfresh & _ & _ & Hone & _).
  split; [exact H|]. split; [reflexivity|].
  split; [exact (proj1 (Hprev 0 eq_refl))|].
  split; [exact Href|]. split; [exact Hfresh|exact Hone].
Defined.

End Instances.

(** ** The body of the request *)

Section RequestBody.

Import Request.

Lemma member_snoc (k k' : string) (v : field) (b : list (string * field)) :
  member k (b ++ [(k', v)]) =
  match member k b with
  | Some x => Some x
  | None => if String.eqb k k' then Some v else None
  end.
Proof.
  induction b as [|[k0 v0] b IH]; simpl; [reflexivity|].
  destruct (String.eqb k k0); [reflexivity|exact IH].
Qed.

Lemma member_put_truthy (k k' : string) (v : option string)
    (b : list (string * field)) :
  member k (put_truthy k' v b) =
  match member k b with
  | Some x => Some x
  | None => if String.eqb k k' then text_member v else None
  end.
Proof.
  unfold put_truthy, text_member. destruct v as [s|].
  - destruct (JsString.truthy s); [apply member_snoc|].
    destruct (member k b), (String.eqb k k'); reflexivity.
  - destruct (member k b), (String.eqb k k'); reflexivity.
Qed.

Lemma member_put_number (k k' : string) (v : option Z)
    (b : list (string * field)) :
  member k (put_number k' v b) =
  match member k b with
  | Some x => Some x
  | None => if String.eqb k k' then number_member v else None
  end.
Proof.
  unfold put_number, number_member. destruct v as [n|]; [apply member_snoc|].
  destruct (member k b), (String.eqb k k'); reflexivity.
Qed.

Lemma member_put_months (k : string) (v : option (list Z))
    (b : list (string * field)) :
  member k (put_months v b) =
  match member k b with
  | Some x => Some x
  | None => if String.eqb k "months" then months_member v else None
  end.
Proof.
  unfold put_months, months_member. destruct v as [[|m l]|];
    try apply member_snoc;
    destruct (member k b), (String.eqb k "months"); reflexivity.
Qed.

Lemma keys_put_truthy (k : string) (v : option string) (b : list (string * field)) :
  map fst (put_truthy k v b) = map fst b ++ key_if k (text_member v).
Proof.
  unfold put_truthy, text_member, key_if. destruct v as [s|].
  - destruct (JsString.truthy s); [now rewrite map_app|now rewrite app_nil_r].
  - now rewrite app_nil_r.
Qed.

Lemma keys_put_number (k : string) (v : option Z) (b : list (string * field)) :
  map fst (put_number k v b) = map fst b ++ key_if k (number_member v).
Proof.
  unfold put_number, number_member, key_if. destruct v as [n|];
    [now rewrite map_app|now rewrite app_nil_r].
Qed.

Lemma keys_put_months (v : option (list Z)) (b : list (string * field)) :
  map fst (put_months v b) = map fst b ++ key_if "months" (months_member v).
Proof.
  unfold put_months, months_member, key_if. destruct v as [[|m l]|];
    [now rewrite app_nil_r|now rewrite map_app|now rewrite app_nil_r].
Qed.

(** X1: the body of the request always carries [max_invoices] as given and
    [force_redownload], which is [false] when the caller left it out; and
    no member is written twice. *)
Theorem body_has_required_members (params : App.DownloadParams) :
  member "max_invoices" (body params) = Some (FNumber (App.max_invoices params))
  /\ member "force_redownload" (body params) =
     Some (FBoolean (match App.force_redownload params with
                     | Some b => b
                     | None => false
                     end))
  /\ NoDup (map fst (body params)).
Proof.
  unfold body. cbv zeta.
  repeat first [rewrite member_put_truthy | rewrite member_put_months
               | rewrite member_put_number].
  split; [reflexivity|split; [reflexivity|]].
  repeat first [rewrite keys_put_truthy | rewrite keys_put_months
               | rewrite keys_put_number].
  generalize (text_member (App.provider params)) (number_member (App.year params))
             (number_member (App.month params)) (months_member (App.months params))
             (text_member (App.date_start params))
             (text_member (App.date_end params)).
  intros [v1|] [v2|] [v3|] [v4|] [v5|] [v6|]; cbn [map fst key_if app];
    match goal with
    | |- NoDup ?l =>
        let H := fresh in
        assert (H : nodup string_dec l = l) by (vm_compute; reflexivity);
        rewrite <- H; apply NoDup_nodup
    end.
Qed.

(** X2: an optional member is in the body exactly when the caller gave it a
    value that JavaScript does not take for absent: a number is kept
    whatever it is, zero included; a string is kept unless it is empty;
    the months are kept unless the list is empty. *)
Theorem body_optional_members (params : App.DownloadParams) :
  member "provider" (body params) = text_member (App.provider params)
  /\ member "year" (body params) = number_member (App.year params)
  /\ member "month" (body params) = number_member (App.month params)
  /\ member "months" (body params) = months_member (App.months params)
  /\ member "date_start" (body params) = text_member (App.date_start params)
  /\ member "date_end" (body params) = text_member (App.date_end params).
Proof.
  unfold body. cbv zeta.
  repeat first [rewrite member_put_truthy | rewrite member_put_months
               | rewrite member_put_number].
  generalize (text_member (App.provider params)) (number_member (App.year params))
             (number_member (App.month params)) (months_member (App.months params))
             (text_member (App.date_start params))
             (text_member (App.date_end params)).
  intros [v1|] [v2|] [v3|] [v4|] [v5|] [v6|]; repeat split; reflexivity.
Qed.

End RequestBody.

(** ** Reads and lines *)

Section ReadsFacts.

Import Json Api Reads.

Context {platform : Platform}.

Lemma concat_cons (c : string) (rest : list string) :
  String.concat "" (c :: rest) = (c ++ String.concat "" rest)%string.
Proof. destruct rest; simpl; [now rewrite append_empty_r|reflexivity]. Qed.

Lemma join_lines_cons (l : string) (rest : list string) :
  rest <> [] ->
  join_lines (l :: rest) = (l ++ String JsString.newline (join_lines rest))%string.
Proof. destruct rest; [contradiction|reflexivity]. Qed.

(** Joining the pieces of a split gives the text back. *)
Lemma join_split_lines (s : string) :
  join_lines (JsString.split_lines s) = s.
Proof.
  induction s as [|c s IH]; simpl; [reflexivity|].
  destruct (Ascii.eqb_spec c JsString.newline) as [->|_].
  - rewrite join_lines_cons by apply split_lines_nonempty.
    rewrite IH. reflexivity.
  - destruct (JsString.split_lines s) as [|l ls] eqn:E;
      [now apply split_lines_nonempty in E|].
    destruct ls as [|l' ls'].
    + simpl in *. now rewrite IH.
    + rewrite join_lines_cons by discriminate.
      rewrite join_lines_cons in IH by discriminate.
      cbn [String.append]. now rewrite IH.
Qed.

Lemma line_groups_spec (buf : string) (chunks : list string) :
  JsString.no_newline buf ->
  let text := (buf ++ String.concat "" chunks)%string in
  List.concat (fst (line_groups buf chunks)) =
  removelast (JsString.split_lines text)
  /\ snd (line_groups buf chunks) = last (JsString.split_lines text) "".
Proof.
  revert buf. induction chunks as [|c chunks IH]; intros buf Hbuf; cbv zeta.
  - simpl. rewrite append_empty_r, (split_lines_no_newline buf Hbuf).
    split; reflexivity.
  - rewrite concat_cons, <- append_assoc, split_lines_app.
    cbn [line_groups].
    specialize (IH (last (JsString.split_lines (buf ++ c)) "")
                  (split_lines_last_no_newline _)).
    cbv zeta in IH.
    destruct (line_groups (last (JsString.split_lines (buf ++ c)) "") chunks)
      as [groups final].
    cbn [fst snd List.concat] in *. destruct IH as [IH1 IH2].
    rewrite IH1, IH2. split.
    + rewrite removelast_app by apply split_lines_nonempty. reflexivity.
    + rewrite last_app_nonempty by apply split_lines_nonempty. reflexivity.
Qed.

(** X3: the reads cut the stream into lines without losing or reordering
    anything. Whatever the chunks, the lines that the reads hand to the
    [for] loop are, in order, the complete lines of the text received, the
    buffer left at the end is the text after the last line feed, and
    joining all of them with line feeds gives the text back. *)
Theorem reads_cut_the_text_into_its_lines (buf : string) (chunks : list string) :
  JsString.no_newline buf ->
  let text := (buf ++ String.concat "" chunks)%string in
  let lines := List.concat (fst (line_groups buf chunks)) in
  let rest := snd (line_groups buf chunks) in
  lines = removelast (JsString.split_lines text)
  /\ rest = last (JsString.split_lines text) ""
  /\ JsString.no_newline rest
  /\ join_lines (lines ++ [rest]) = text.
Proof.
  intros Hbuf. cbv zeta.
  destruct (line_groups_spec buf chunks Hbuf) as [H1 H2]. cbv zeta in *.
  rewrite H1, H2. repeat split.
  - apply split_lines_last_no_newline.
  - rewrite <- app_removelast_last by apply split_lines_nonempty.
    apply join_split_lines.
Qed.

Lemma run_groups_set_buffer (onProgress : bool) (b : string) (st : LoopState)
    (groups : list (list string)) (fin : ending) :
  run_groups onProgress (set_buffer b st) groups fin =
  (set_buffer b (fst (run_groups onProgress st groups fin)),
   snd (run_groups onProgress st groups fin)).
Proof.
  revert st. induction groups as [|g groups IH]; intros st; simpl.
  - destruct fin; reflexivity.
  - rewrite process_lines_set_buffer.
    destruct (process_lines onProgress st "" g) as [st' ev|st' e]; simpl;
      [apply IH|reflexivity].
Qed.

Lemma read_loop_run_groups (onProgress : bool) (st : LoopState)
    (chunks : list string) (fin : ending) :
  observed (read_loop onProgress st chunks fin) =
  observed (run_groups onProgress st (fst (line_groups (buffer st) chunks)) fin).
Proof.
  revert st. induction chunks as [|c chunks IH]; intros st.
  - simpl. reflexivity.
  - cbn [read_loop line_groups]. unfold process_chunk.
    set (lines := JsString.split_lines (buffer st ++ c)).
    specialize (IH (set_buffer (last lines "")
                      (state_of (process_lines onProgress st "" (removelast lines))))).
    cbn [set_buffer buffer] in IH.
    destruct (line_groups (last lines "") chunks) as [groups final].
    cbn [fst] in *. cbn [run_groups].
    rewrite process_lines_set_buffer.
    destruct (process_lines onProgress st "" (removelast lines)) as [st' ev|st' e];
      cbn [map_state state_of] in *.
    + rewrite IH. rewrite run_groups_set_buffer.
      unfold observed. destruct st'. reflexivity.
    + reflexivity.
Qed.

(** X4: what the loop does depends on the chunks only through the lines
    that each read completes: two ways of cutting a stream that complete
    the same lines in the same reads end with the same [lastResult], the
    same effects and the same error, if any. *)
Theorem reads_matter_only_by_their_lines (onProgress : bool) (st : LoopState)
    (chunks chunks' : list string) (fin : ending) :
  fst (line_groups (buffer st) chunks) = fst (line_groups (buffer st) chunks') ->
  observed (read_loop onProgress st chunks fin) =
  observed (read_loop onProgress st chunks' fin).
Proof.
  intros H. rewrite !read_loop_run_groups, H. reflexivity.
Qed.

(** An [event:] line sets the event type whatever it was. *)
Lemma process_lines_event_first (onProgress : bool) (st : LoopState)
    (ev ev' : string) (l : string) (group : list string) :
  JsString.startsWith l "event: " = true ->
  process_lines onProgress st ev (l :: group) =
  process_lines onProgress st ev' (l :: group).
Proof.
  intros H. simpl. unfold process_line. rewrite H. reflexivity.
Qed.

Lemma run_groups_merge (onProgress : bool) (st : LoopState)
    (g1 g2 : list string) (groups : list (list string)) (fin : ending) :
  event_first g2 ->
  run_groups onProgress st (g1 :: g2 :: groups) fin =
  run_groups onProgress st ((g1 ++ g2) :: groups) fin.
Proof.
  intros H. cbn [run_groups]. rewrite process_lines_app.
  destruct (process_lines onProgress st "" g1) as [st1 ev1|st1 e]; [|reflexivity].
  destruct g2 as [|l g2]; [reflexivity|].
  rewrite (process_lines_event_first onProgress st1 "" ev1 l g2 H). reflexivity.
Qed.

Lemma run_groups_merge_all (onProgress : bool) (st : LoopState)
    (g : list string) (groups : list (list string)) (fin : ending) :
  Forall event_first groups ->
  run_groups onProgress st (g :: groups) fin =
  run_groups onProgress st [g ++ List.concat groups] fin.
Proof.
  revert g. induction groups as [|g2 groups IH]; intros g H.
  - simpl List.concat. rewrite app_nil_r. reflexivity.
  - inversion H as [|? ? H2 Hrest]; subst.
    rewrite run_groups_merge by exact H2.
    rewrite IH by exact Hrest.
    simpl List.concat. rewrite app_assoc. reflexivity.
Qed.

Lemma downloadInvoices_observed (onProgress : bool)
    (ok ok' : bool) (status status' : Z) (text text' : string)
    (json json' : option value) (b b' : Body) :
  observed (read_loop onProgress initial (Api.chunks b) (finish b)) =
  observed (read_loop onProgress initial (Api.chunks b') (finish b')) ->
  downloadInvoices onProgress (mkResponse ok status text (Some b) json) =
  downloadInvoices onProgress (mkResponse ok' status' text' (Some b') json').
Proof.
  unfold downloadInvoices, observed. cbn [body].
  destruct (read_loop onProgress initial (Api.chunks b) (finish b)) as [s1 e1].
  destruct (read_loop onProgress initial (Api.chunks b') (finish b')) as [s2 e2].
  cbn [fst snd]. intros H. injection H as Hr Ht He. subst e2.
  rewrite Hr, Ht. reflexivity.
Qed.

(** X5: when every read but the first completes no line or has an [event:]
    line as its first complete line, the chunking does not matter: the loop
    ends as if the whole stream had come in one chunk, and so does
    [downloadInvoices]. *)
Theorem chunking_is_harmless_when_reads_start_with_an_event
    (onProgress : bool) (chunks : list string) (fin : ending)
    (ok : bool) (status : Z) (statusText : string) (json : option value) :
  Forall event_first (tl (fst (line_groups "" chunks))) ->
  observed (read_loop onProgress initial chunks fin) =
  observed (read_loop onProgress initial [String.concat "" chunks] fin)
  /\ downloadInvoices onProgress
       (mkResponse ok status statusText (Some (mkBody chunks fin)) json) =
     downloadInvoices onProgress
       (mkResponse ok status statusText
          (Some (mkBody [String.concat "" chunks] fin)) json).
Proof.
  intros H.
  assert (Hobs : observed (read_loop onProgress initial chunks fin) =
                 observed (read_loop onProgress initial [String.concat "" chunks] fin)).
  { rewrite !read_loop_run_groups. cbn [initial buffer].
    destruct (line_groups_spec "" chunks no_newline_empty) as [Hlines _].
    cbv zeta in Hlines.
    cbn [line_groups fst]. simpl String.append in *.
    rewrite <- Hlines.
    destruct (fst (line_groups "" chunks)) as [|g groups] eqn:E.
    - reflexivity.
    - cbn [tl] in H. rewrite (run_groups_merge_all _ _ _ _ _ H). reflexivity. }
  split; [exact Hobs|].
  apply downloadInvoices_observed. exact Hobs.
Qed.

(** X6: a read that brings no line feed can be merged with the next read:
    cutting a chunk anywhere before its first line feed changes nothing. *)
Theorem split_before_first_line_feed (onProgress : bool) (st : LoopState)
    (a b : string) (rest : list string) (fin : ending) :
  JsString.no_newline (buffer st) ->
  JsString.no_newline a ->
  read_loop onProgress st (a :: b :: rest) fin =
  read_loop onProgress st ((a ++ b)%string :: rest) fin.
Proof.
  intros Hbuf Ha. cbn [read_loop].
  assert (H1 : process_chunk onProgress st a =
               Normal (set_buffer (buffer st ++ a) st) "").
  { unfold process_chunk.
    rewrite split_lines_no_newline by (apply no_newline_app; split; assumption).
    reflexivity. }
  rewrite H1.
  assert (H2 : process_chunk onProgress (set_buffer (buffer st ++ a) st) b =
               process_chunk onProgress st (a ++ b)).
  { unfold process_chunk. cbn [set_buffer buffer lastResult trace].
    rewrite append_assoc. reflexivity. }
  rewrite H2. reflexivity.
Qed.

(** A line that the [for] loop passes over, in every state and under every
    event type, can be taken out of a read. *)
Lemma passed_over_line (onProgress : bool) (l : string) :
  (forall st ev, process_line onProgress st ev l = Normal st ev) ->
  JsString.no_newline l ->
  forall (st : LoopState) (c1 c2 : string) (rest : list string) (fin : ending),
    last (JsString.split_lines (buffer st ++ c1)) "" = "" ->
    read_loop onProgress st
      ((c1 ++ l ++ String JsString.newline c2)%string :: rest) fin =
    read_loop onProgress st ((c1 ++ c2)%string :: rest) fin.
Proof.
  intros Hpass Hline st c1 c2 rest fin Hboundary.
  assert (Hskip : forall s ev l1 l2,
             process_lines onProgress s ev (l1 ++ l :: l2) =
             process_lines onProgress s ev (l1 ++ l2)).
  { intros s ev l1 l2. rewrite !process_lines_app.
    destruct (process_lines onProgress s ev l1) as [st' ev'|st' e];
      [|reflexivity].
    simpl. rewrite Hpass. reflexivity. }
  cbn [read_loop]. unfold process_chunk.
  rewrite <- (append_assoc (buffer st) c1 (l ++ String JsString.newline c2)).
  rewrite <- (append_assoc (buffer st) c1 c2).
  rewrite (split_lines_app (buffer st ++ c1) (l ++ String JsString.newline c2)).
  rewrite (split_lines_app (buffer st ++ c1) c2).
  rewrite Hboundary. simpl String.append.
  rewrite (split_lines_line l c2 Hline).
  pose proof (split_lines_nonempty c2) as Hne.
  rewrite !removelast_app by (try discriminate; exact Hne).
  rewrite (removelast_cons_nonempty l _ Hne).
  rewrite !last_app_nonempty by (try discriminate; exact Hne).
  rewrite (last_cons_nonempty l "" _ Hne).
  rewrite Hskip. reflexivity.
Qed.

(** X7: a line that begins with neither [event: ] nor [data: ] (a blank
    line, a comment, a marker without its space) is passed over: the
    stream that carries it at a line boundary is read exactly as the stream
    without it, and the event type in force before the line is still in
    force after it. *)
Theorem other_lines_are_ignored (onProgress : bool) (st : LoopState)
    (ev l : string) (c1 c2 : string) (rest : list string) (fin : ending) :
  JsString.startsWith l "event: " = false ->
  JsString.startsWith l "data: " = false ->
  JsString.no_newline l ->
  process_line onProgress st ev l = Normal st ev
  /\ (last (JsString.split_lines (buffer st ++ c1)) "" = "" ->
      read_loop onProgress st
        ((c1 ++ l ++ String JsString.newline c2)%string :: rest) fin =
      read_loop onProgress st ((c1 ++ c2)%string :: rest) fin).
Proof.
  intros He Hd Hline.
  assert (Hpass : forall s e, process_line onProgress s e l = Normal s e).
  { intros s e. unfold process_line. rewrite He, Hd. reflexivity. }
  split; [apply Hpass|].
  apply passed_over_line; assumption.
Qed.

(** X8: a [data:] line that is the first line of a read is dropped whatever
    it carries: no event type is in force at the start of a read, so the
    payload is not even parsed. *)
Theorem leading_data_line_is_dropped (onProgress : bool) (st : LoopState)
    (l c : string) (rest : list string) (fin : ending) :
  buffer st = "" ->
  JsString.startsWith l "data: " = true ->
  JsString.no_newline l ->
  read_loop onProgress st ((l ++ String JsString.newline c)%string :: rest) fin =
  read_loop onProgress st (c :: rest) fin.
Proof.
  intros Hbuf Hdata Hline. cbn [read_loop]. unfold process_chunk.
  rewrite Hbuf. simpl String.append.
  rewrite (split_lines_line l c Hline).
  pose proof (split_lines_nonempty c) as Hne.
  rewrite (removelast_cons_nonempty l _ Hne), (last_cons_nonempty l "" _ Hne).
  cbn [process_lines]. unfold process_line at 1.
  rewrite (data_line_is_no_event_line l Hdata), Hdata. reflexivity.
Qed.

(** *** Effects *)

Lemma filter_snoc {A : Type} (f : A -> bool) (l : list A) (x : A) :
  filter f (l ++ [x]) = filter f l ++ (if f x then [x] else []).
Proof. rewrite filter_app. reflexivity. Qed.

Lemma process_line_no_callback (st : LoopState) (ev l : string) :
  filter is_progress_call (trace (state_of (process_line false st ev l))) =
  filter is_progress_call (trace st).
Proof.
  unfold process_line.
  destruct (JsString.startsWith l "event: "); [reflexivity|].
  destruct (JsString.startsWith l "data: " && JsString.truthy ev); [|reflexivity].
  destruct (JSON_parse (JsString.slice 6 l)) as [data|]; [|reflexivity].
  rewrite andb_false_r.
  destruct (String.eqb ev "done").
  - cbn [state_of log trace]. rewrite filter_snoc. cbn. apply app_nil_r.
  - destruct (String.eqb ev "error"); reflexivity.
Qed.

(** X9: without a callback no [onProgress] call is made, whatever the
    stream carries: the effects of [downloadInvoices] are then only the
    recordings of [done] payloads. *)
Theorem no_callback_no_progress_call (response : Response) :
  filter is_progress_call (fst (downloadInvoices false response)) = [].
Proof.
  assert (Hlines : forall lines st ev,
             filter is_progress_call
               (trace (state_of (process_lines false st ev lines))) =
             filter is_progress_call (trace st)).
  { induction lines as [|l lines IH]; intros st ev; simpl; [reflexivity|].
    pose proof (process_line_no_callback st ev l) as H.
    destruct (process_line false st ev l) as [st' ev'|st' e]; cbn [state_of] in *.
    - rewrite IH. exact H.
    - exact H. }
  assert (Hloop : forall cs st fin,
             filter is_progress_call (trace (fst (read_loop false st cs fin))) =
             filter is_progress_call (trace st)).
  { induction cs as [|c cs IH]; intros st fin; simpl.
    - destruct fin; reflexivity.
    - pose proof (Hlines (removelast (JsString.split_lines (buffer st ++ c)))
                    (set_buffer (last (JsString.split_lines (buffer st ++ c)) "") st)
                    "") as H.
      unfold process_chunk.
      destruct (process_lines false _ "" _) as [st' ev'|st' e];
        cbn [state_of fst] in *.
      + rewrite IH. exact H.
      + exact H. }
  unfold downloadInvoices.
  destruct (body response) as [b|].
  - specialize (Hloop (Api.chunks b) initial (finish b)).
    destruct (read_loop false initial (Api.chunks b) (finish b)) as [st [e|]];
      cbn [fst] in *; [exact Hloop|].
    destruct (negb (truthy (lastResult st))); exact Hloop.
  - destruct (negb (ok response)); reflexivity.
Qed.

(** X10: a [done] payload that JavaScript takes for false ([null], [false],
    [0], the empty string) is recorded and yet counts for nothing: the
    stream that ends with such a payload as its last [done] fails for want
    of a result. *)
Theorem falsy_done_payload_is_no_result (onProgress : bool)
    (response : Response) (b : Body) (st : LoopState) (data : value) :
  body response = Some b ->
  read_loop onProgress initial (Api.chunks b) (finish b) = (st, None) ->
  last_done (trace st) = Some data ->
  truthy data = false ->
  downloadInvoices onProgress response =
  (trace st, Throw (new_Error "Téléchargement terminé sans résultat")).
Proof.
  intros Hbody Hloop Hdone Hfalsy.
  pose proof (read_loop_result_recorded onProgress initial (Api.chunks b) (finish b)
                eq_refl) as Hrec.
  rewrite Hloop in Hrec. cbn [fst] in Hrec. unfold result_recorded in Hrec.
  rewrite Hdone in Hrec.
  unfold downloadInvoices. rewrite Hbody, Hloop, Hrec, Hfalsy. reflexivity.
Qed.

(** *** Where a flagged error comes from *)






(** X12: when the loop reaches the end of the stream, its buffer holds the
    text received after the last line feed, and nothing else: the memory of
    the loop is one unfinished line. *)
Theorem buffer_holds_the_unfinished_line (onProgress : bool)
    (st st' : LoopState) (cs : list string) :
  JsString.no_newline (buffer st) ->
  read_loop onProgress st cs Closed = (st', None) ->
  buffer st' = last (JsString.split_lines (buffer st ++ String.concat "" cs)) ""
  /\ JsString.no_newline (buffer st').
Proof.
  intros Hbuf Hloop.
  assert (H : buffer st' =
              last (JsString.split_lines (buffer st ++ String.concat "" cs)) "").
  { revert st Hbuf Hloop. induction cs as [|c cs IH]; intros st Hbuf;
      cbn [read_loop].
    - intros H. injection H as <-. simpl String.concat.
      rewrite append_empty_r, (split_lines_no_newline _ Hbuf). reflexivity.
    - pose proof (process_chunk_buffer onProgress st c) as Hc.
      destruct (process_chunk onProgress st c) as [s1 ev1|s1 e1];
        [|discriminate].
      cbn [state_of] in Hc. intros Hloop.
      rewrite (IH s1) by
        (try exact Hloop; rewrite Hc; apply split_lines_last_no_newline).
      rewrite concat_cons.
      rewrite <- append_assoc, (split_lines_app (buffer st ++ c)), Hc.
      rewrite last_app_nonempty by apply split_lines_nonempty. reflexivity. }
  split; [exact H|]. rewrite H. apply split_lines_last_no_newline.
Qed.

End ReadsFacts.

(** ** The handlers, from start to end *)

Section HandlerFacts.

Import Json App Outcome.

Context {platform : Platform}.

Ltac end_branches err :=
  unfold handleDownload_end;
  try (destruct (String.eqb (Api.name err) "AbortError") eqn:?);
  try (destruct (truthy_val (Api.requiresOtp err)) eqn:?);
  try (destruct (JsString.includes (Api.message err) "Failed to fetch") eqn:?);
  try (destruct (JsString.includes (Api.message err) "timeout") eqn:?).

(** The callback touches the status and the progress only. *)
Lemma on_effects_frame (l : list Api.effect) (s : Session) :
  let s' := fold_left (fun st ev => on_effect ev st) l s in
  result s' = result s /\ loading s' = loading s /\ error s' = error s
  /\ requiresOTP s' = requiresOTP s /\ otpCode s' = otpCode s
  /\ otpError s' = otpError s /\ pendingDownload s' = pendingDownload s
  /\ abortControllerRef s' = abortControllerRef s
  /\ controllers s' = controllers s /\ network s' = network s
  /\ settled s' = settled s.
Proof.
  revert s. induction l as [|ev l IH]; intros s; cbv zeta; simpl.
  - repeat split.
  - specialize (IH (on_effect ev s)). cbv zeta in IH.
    destruct IH as (H1 & H2 & H3 & H4 & H5 & H6 & H7 & H8 & H9 & H10 & H11).
    rewrite H1, H2, H3, H4, H5, H6, H7, H8, H9, H10, H11.
    destruct ev; repeat split.
Qed.

(** What the end of [handleDownload] leaves alone, and what it always does. *)
Lemma handleDownload_end_frame (c : nat) (params : DownloadParams)
    (out : Api.outcome) (s : Session) :
  let s' := handleDownload_end c params out s in
  loading s' = false /\ progress s' = None
  /\ otpCode s' = otpCode s /\ otpError s' = otpError s
  /\ controllers s' = controllers s /\ network s' = network s
  /\ abortControllerRef s' =
     match abortControllerRef s with
     | Some c' => if Nat.eqb c' c then None else Some c'
     | None => None
     end.
Proof.
  cbv zeta. destruct out as [r|err]; [|end_branches err]; repeat split.
Qed.



(** X15: after [handleDownload] the result is the response of a successful
    download and nothing otherwise, and an error message is shown exactly
    when the download failed otherwise than by cancellation. *)
Theorem result_and_error_after_a_download (params : DownloadParams)
    (run : list Api.effect * Api.outcome) (s : Session) :
  let s' := handleDownload params run s in
  result s' = match snd run with
              | Api.Return r => Some r
              | Api.Throw _ => None
              end
  /\ (error s' = None <-> is_quiet (snd run) = true).
Proof.
  cbv zeta. unfold handleDownload.
  destruct (handleDownload_begin params s) as [s1 c] eqn:Hb.
  assert (H1 : result s1 = None /\ error s1 = None).
  { unfold handleDownload_begin in Hb. injection Hb as <- _. split; reflexivity. }
  destruct H1 as [Hres Herr].
  destruct (on_effects_frame (fst run) s1) as (Hr & _ & He & _).
  cbv zeta in *.
  set (s2 := fold_left (fun st ev => on_effect ev st) (fst run) s1) in *.
  rewrite Hres in Hr. rewrite Herr in He.
  unfold is_quiet, is_abort.
  destruct (snd run) as [r|err]; [unfold handleDownload_end|end_branches err];
    cbn [handleDownload_finally result error];
    rewrite ?Hr, ?He; split; try reflexivity;
    split; intros; try reflexivity; try discriminate; try assumption.
Qed.

(** X16: when a second download starts before the first has ended, the
    end of the first one, whatever its outcome, leaves the controller of
    the second in the ref and changes no signal: the first is aborted, the
    second is not. *)
Theorem superseded_download_keeps_the_ref (p1 p2 : DownloadParams)
    (out : Api.outcome) (s : Session) :
  let s1 := fst (handleDownload_begin p1 s) in
  let c1 := snd (handleDownload_begin p1 s) in
  let s2 := fst (handleDownload_begin p2 s1) in
  let c2 := snd (handleDownload_begin p2 s1) in
  let s3 := handleDownload_end c1 p1 out s2 in
  abortControllerRef s3 = Some c2
  /\ c2 = S c1
  /\ aborted c1 (controllers s3) = true
  /\ aborted c2 (controllers s3) = false.
Proof.
  cbv zeta.
  destruct (handleDownload_begin_controllers p1 s) as (Hp1 & Hr1 & Hc1 & _).
  set (s1 := fst (handleDownload_begin p1 s)) in *.
  destruct (handleDownload_begin_controllers p2 s1) as (Hp2 & Hr2 & Hc2 & _).
  set (s2 := fst (handleDownload_begin p2 s1)) in *.
  cbv zeta in *. rewrite Hr1 in Hc2.
  assert (Hsnd1 : snd (handleDownload_begin p1 s) = List.length (controllers s))
    by (rewrite Hp1; reflexivity).
  assert (Hsnd2 : snd (handleDownload_begin p2 s1) = List.length (controllers s1))
    by (rewrite Hp2; reflexivity).
  rewrite Hsnd1, Hsnd2.
  assert (Hlen : List.length (controllers s1) = S (List.length (controllers s))).
  { rewrite Hc1, length_app. simpl.
    destruct (abortControllerRef s); rewrite ?abort_length; lia. }
  destruct (handleDownload_end_frame (List.length (controllers s)) p1 out s2)
    as (_ & _ & _ & _ & Hc3 & _ & Hr3).
  cbv zeta in *. rewrite Hr3, Hc3, Hr2, Hc2, Hlen.
  assert (Hne : Nat.eqb (S (List.length (controllers s))) (List.length (controllers s))
                = false) by (apply Nat.eqb_neq; lia).
  rewrite Hne. split; [reflexivity|]. split; [reflexivity|].
  rewrite !aborted_new_controller. split.
  - apply aborted_abort_same. lia.
  - rewrite aborted_abort_other by lia.
    unfold aborted. apply nth_overflow. lia.
Qed.


(** X18: after the cancel button, in every reachable session, no download
    is live any more; the button sends no request, leaves the ref as it
    is, and pressing it again changes nothing. *)
Theorem cancel_leaves_no_live_download (s : Session) :
  reachable s ->
  (forall c, ~ live (handleCancelDownload s) c)
  /\ network (handleCancelDownload s) = network s
  /\ abortControllerRef (handleCancelDownload s) = abortControllerRef s
  /\ handleCancelDownload (handleCancelDownload s) = handleCancelDownload s.
Proof.
  intros Hreach. pose proof (reachable_single_flight s Hreach) as Hinv.
  pose proof (single_flight_cancel s Hinv) as [_ Hlive'].
  destruct Hinv as [Href _].
  unfold handleCancelDownload in *.
  destruct (abortControllerRef s) as [c0|] eqn:Hc.
  - cbn [abortControllerRef controllers network] in *.
    split; [|split; [reflexivity|split; [reflexivity|]]].
    + intros c Hl. pose proof (Hlive' c Hl) as Heq. injection Heq as <-.
      destruct Hl as (_ & Hab & _). cbn [controllers] in Hab.
      rewrite aborted_abort_same in Hab by (apply Href; reflexivity).
      discriminate.
    + f_equal.
      assert (Hidem : forall l n, abort n (abort n l) = abort n l).
      { induction l as [|b l IH]; intros [|n]; simpl; try reflexivity.
        now rewrite IH. }
      apply Hidem.
  - split; [|split; [reflexivity|split; [exact Hc|]]].
    + intros c Hl. apply Hlive' in Hl. congruence.
    + rewrite Hc. reflexivity.
Qed.

(** X19: a code that the backend refuses (no success, or a further code
    required) sends nothing but the submission: no download is requested,
    the pending download is kept, the message of the backend (or the
    default one) is shown, the form stays open exactly when the answer
    says that a code is still required, and loading is off. *)
Theorem refused_code_keeps_the_pending_download (response : OTPResponse)
    (run : list Api.effect * Api.outcome) (s : Session) :
  4 <= String.length (otpCode s) ->
  success response && negb (requires_otp response) = false ->
  let s' := handleSubmitOTP (inl response) run s in
  network s' = network s ++ [PostSubmitOtp (otpCode s)]
  /\ pendingDownload s' = pendingDownload s
  /\ requiresOTP s' = requires_otp response
  /\ otpError s' =
     Some (or_else (message response) "Code OTP incorrect ou expiré")
  /\ otpCode s' = otpCode s
  /\ loading s' = false.
Proof.
  intros Hlen Hrefused. cbv zeta. unfold handleSubmitOTP, handleSubmitOTP_begin.
  assert (Ht : JsString.truthy (otpCode s) = true)
    by (destruct (otpCode s); [simpl in Hlen; lia|reflexivity]).
  apply Nat.ltb_ge in Hlen. rewrite Hlen, Ht, Hrefused.
  repeat split.
Qed.

(** X20: when the submission itself fails, the message of the error is
    shown and nothing else moves: no download is requested, the pending
    download and the open form are kept, and loading is off. *)
Theorem failed_submission_changes_nothing_else (err : Api.exn)
    (run : list Api.effect * Api.outcome) (s : Session) :
  4 <= String.length (otpCode s) ->
  let s' := handleSubmitOTP (inr err) run s in
  network s' = network s ++ [PostSubmitOtp (otpCode s)]
  /\ pendingDownload s' = pendingDownload s
  /\ requiresOTP s' = requiresOTP s
  /\ otpError s' = Some (Api.message err)
  /\ otpCode s' = otpCode s
  /\ status s' = status s
  /\ loading s' = false.
Proof.
  intros Hlen. cbv zeta. unfold handleSubmitOTP, handleSubmitOTP_begin.
  assert (Ht : JsString.truthy (otpCode s) = true)
    by (destruct (otpCode s); [simpl in Hlen; lia|reflexivity]).
  apply Nat.ltb_ge in Hlen. rewrite Hlen, Ht.
  repeat split.
Qed.

(** X21: an accepted code with no pending download sends nothing but the
    submission; it closes the form, empties the code field and says that
    the code was accepted. *)
Theorem accepted_code_without_pending (response : OTPResponse)
    (run : list Api.effect * Api.outcome) (s : Session) :
  4 <= String.length (otpCode s) ->
  success response = true ->
  requires_otp response = false ->
  pendingDownload s = None ->
  let s' := handleSubmitOTP (inl response) run s in
  network s' = network s ++ [PostSubmitOtp (otpCode s)]
  /\ requiresOTP s' = false
  /\ otpCode s' = ""
  /\ status s' = "Code OTP accepté"
  /\ loading s' = false
  /\ abortControllerRef s' = abortControllerRef s.
Proof.
  intros Hlen Hok Hno Hpend. cbv zeta.
  unfold handleSubmitOTP, handleSubmitOTP_begin.
  assert (Ht : JsString.truthy (otpCode s) = true)
    by (destruct (otpCode s); [simpl in Hlen; lia|reflexivity]).
  apply Nat.ltb_ge in Hlen. rewrite Hlen, Ht, Hok, Hno, Hpend.
  repeat split.
Qed.


(** *** From the response to the session *)

Lemma unauthorized_without_body (onProgress : bool) (response : Api.Response) :
  Api.ok response = false ->
  Api.body response = None ->
  Api.status response = 401%Z ->
  Api.json response <> Some JNull ->
  let d := match Api.json response with
           | Some (JObj members) => lookup "detail" members
           | _ => None
           end in
  let detail :=
    if truthy_val d then Api.toString (nullish_or d JNull)
    else Api.statusText response in
  Api.downloadInvoices onProgress response =
  ([], Api.Throw (Api.mkError "Error" detail (Some (JBool true)))).
Proof.
  intros Hok Hbody Hstatus Hjson. cbv zeta.
  unfold Api.downloadInvoices, Api.reject_response.
  rewrite Hbody, Hok, Hstatus. cbn [negb].
  destruct (Api.json response) as [[]|]; try reflexivity.
  contradiction Hjson. reflexivity.
Qed.

(** X23: a 401 without body, received by [handleDownload], opens the
    challenge form with the params of the download pending and shows the
    status [Code 2FA requis]; the error shown is the detail sent by the
    server, else the status text, else a fixed invitation to enter the
    code. *)
Theorem unauthorized_response_opens_the_challenge (params : DownloadParams)
    (response : Api.Response) (s : Session) :
  Api.ok response = false ->
  Api.body response = None ->
  Api.status response = 401%Z ->
  Api.json response <> Some JNull ->
  let d := match Api.json response with
           | Some (JObj members) => lookup "detail" members
           | _ => None
           end in
  let detail :=
    if truthy_val d then Api.toString (nullish_or d JNull)
    else Api.statusText response in
  let s' := handleDownload params (Api.downloadInvoices true response) s in
  requiresOTP s' = true
  /\ pendingDownload s' = Some params
  /\ status s' = "Code 2FA requis"
  /\ error s' =
     Some (or_else detail
             "Code 2FA requis. Veuillez saisir le code reçu par SMS, email ou application.")
  /\ result s' = None
  /\ loading s' = false.
Proof.
  intros Hok Hbody Hstatus Hjson. cbv zeta.
  rewrite (unauthorized_without_body true response Hok Hbody Hstatus Hjson).
  unfold handleDownload.
  destruct (handleDownload_begin params s) as [s1 c] eqn:Hb.
  assert (Hres : result s1 = None).
  { unfold handleDownload_begin in Hb. injection Hb as <- _. reflexivity. }
  cbn. rewrite Hres. repeat split.
Qed.


End HandlerFacts.

(** ** The progress bar and the progress events *)

Section BarFacts.

Import Json.

Context {platform : Platform}.

(** X25: a [progress] event whose payload has no [total] (or a [null]
    one) reaches the callback with the total -1, and for it
    [StatusDisplay] renders no bar and computes the percentage 0. *)
Theorem unknown_total_hides_the_bar (members : list (string * value))
    (p : Api.DownloadProgress) (info : StatusDisplay.ProgressInfo) :
  lookup "total" members = None \/ lookup "total" members = Some JNull ->
  Api.progress_event (JObj members) = inl p ->
  View.progress_prop p = Some info ->
  Api.total p = JNum (-1)%float
  /\ StatusDisplay.showBar (Some info) = false
  /\ StatusDisplay.percent (Some info) = JsMath.RInt 0.
Proof.
  intros Htotal Hev Hinfo.
  unfold Api.progress_event in Hev. cbn [Api.get] in Hev.
  injection Hev as <-.
  assert (Ht : nullish_or (lookup "total" members) (JNum (-1)%float) = JNum (-1)%float)
    by (destruct Htotal as [-> | ->]; reflexivity).
  unfold View.progress_prop in Hinfo.
  cbn [Api.current Api.total Api.message_] in *. rewrite Ht in *.
  destruct (View.as_number (nullish_or (lookup "current" members) (JNum 0)))
    as [c|]; [|discriminate].
  cbn [View.as_number] in Hinfo.
  destruct (View.as_string (nullish_or (lookup "message" members) (JStr "")))
    as [m|]; [|discriminate].
  injection Hinfo as <-.
  split; [reflexivity|]. split; reflexivity.
Qed.

End BarFacts.

(** ** These theorems at work on concrete inputs *)

Section MoreInstances.

Import Json Sample Scenes.

Ltac free_of_line_feed :=
  let c := fresh "c" in
  let H := fresh "H" in
  intros c H; cbn in H;
  repeat (destruct H as [<-|H]; [discriminate|]); destruct H.

(** Two chunks that cut the text [ab/cd/e] inside its second line. *)
Lemma reads_cut_the_text_into_its_lines_witness :
  let chunks := [("ab" ++ nl ++ "c")%string; ("d" ++ nl ++ "e")%string] in
  List.concat (fst (Reads.line_groups "" chunks)) = ["ab"; "cd"]
  /\ snd (Reads.line_groups "" chunks) = "e"
  /\ Reads.join_lines ["ab"; "cd"; "e"] = ("ab" ++ nl ++ "cd" ++ nl ++ "e")%string.
Proof.
  cbv zeta.
  destruct (reads_cut_the_text_into_its_lines ""
              [("ab" ++ nl ++ "c")%string; ("d" ++ nl ++ "e")%string]
              no_newline_empty) as (H1 & H2 & _ & H4).
  cbv zeta in *. rewrite H1, H2 in H4. rewrite H1, H2.
  split; [reflexivity|]. split; [reflexivity|exact H4].
Defined.

(** The same two events cut inside the second line at two different places. *)
Lemma reads_matter_only_by_their_lines_witness :
  let tick := ("event: progress" ++ nl ++ "data: " ++ progress_text ++ nl)%string in
  let chunks := [(tick ++ "event: pro")%string; ("gress" ++ nl)%string] in
  let chunks' := [(tick ++ "event: progres")%string; ("s" ++ nl)%string] in
  Reads.observed (Api.read_loop true Api.initial chunks Api.Closed) =
  Reads.observed (Api.read_loop true Api.initial chunks' Api.Closed).
Proof.
  cbv zeta.
  apply (reads_matter_only_by_their_lines true Api.initial). reflexivity.
Defined.

(** Each read brings one whole event. *)
Lemma chunking_is_harmless_when_reads_start_with_an_event_witness :
  let tick := ("event: progress" ++ nl ++ "data: " ++ progress_text ++ nl)%string in
  let finished := ("event: done" ++ nl ++ "data: " ++ done_text ++ nl)%string in
  Forall Reads.event_first (tl (fst (Reads.line_groups "" [tick; finished])))
  /\ Api.downloadInvoices true (streamed [tick; finished]) =
     Api.downloadInvoices true (streamed [String.concat "" [tick; finished]])
  /\ snd (Api.downloadInvoices true (streamed [tick; finished])) =
     Api.Return (JObj [("count", JNum 1%float)]).
Proof.
  cbv zeta.
  assert (H : Forall Reads.event_first
                (tl (fst (Reads.line_groups ""
                   [("event: progress" ++ nl ++ "data: " ++ progress_text ++ nl)%string;
                    ("event: done" ++ nl ++ "data: " ++ done_text ++ nl)%string])))).
  { cbn. constructor; [reflexivity|constructor]. }
  split; [exact H|].
  destruct (chunking_is_harmless_when_reads_start_with_an_event true _ Api.Closed
              true 200%Z "OK" None H) as [_ Hsame].
  split; [exact Hsame|reflexivity].
Defined.

(** The first read stops in the middle of the word [event]. *)
Lemma split_before_first_line_feed_witness :
  let rest := ("nt: done" ++ nl ++ "data: {}" ++ nl)%string in
  (JsString.no_newline (Api.buffer Api.initial) /\ JsString.no_newline "eve")
  /\ Api.read_loop true Api.initial ["eve"; rest] Api.Closed =
     Api.read_loop true Api.initial [("eve" ++ rest)%string] Api.Closed.
Proof.
  cbv zeta.
  assert (H1 : JsString.no_newline (Api.buffer Api.initial)) by apply no_newline_empty.
  assert (H2 : JsString.no_newline "eve") by free_of_line_feed.
  split; [split; assumption|].
  exact (split_before_first_line_feed true Api.initial "eve" _ [] Api.Closed H1 H2).
Defined.

(** A comment line between an event line and its data line. *)
Lemma other_lines_are_ignored_witness :
  let c1 := ("event: done" ++ nl)%string in
  let c2 := ("data: {}" ++ nl)%string in
  (JsString.startsWith ": ping" "event: " = false
   /\ JsString.startsWith ": ping" "data: " = false
   /\ JsString.no_newline ": ping")
  /\ Api.read_loop true Api.initial
       [(c1 ++ ": ping" ++ String JsString.newline c2)%string] Api.Closed =
     Api.read_loop true Api.initial [(c1 ++ c2)%string] Api.Closed.
Proof.
  cbv zeta.
  assert (H1 : JsString.startsWith ": ping" "event: " = false) by reflexivity.
  assert (H2 : JsString.startsWith ": ping" "data: " = false) by reflexivity.
  assert (H3 : JsString.no_newline ": ping") by free_of_line_feed.
  split; [repeat split; assumption|].
  destruct (other_lines_are_ignored true Api.initial "" ": ping"
              ("event: done" ++ nl)%string ("data: {}" ++ nl)%string
              [] Api.Closed H1 H2 H3) as [_ H].
  apply H. reflexivity.
Defined.

(** A read that begins with the data line of an error event. *)
Lemma leading_data_line_is_dropped_witness :
  let l := ("data: " ++ refused_otp_text)%string in
  (Api.buffer Api.initial = ""
   /\ JsString.startsWith l "data: " = true
   /\ JsString.no_newline l)
  /\ Api.read_loop true Api.initial [(l ++ String JsString.newline "")%string] Api.Closed =
     Api.read_loop true Api.initial [""] Api.Closed.
Proof.
  cbv zeta.
  assert (H1 : JsString.startsWith ("data: " ++ refused_otp_text) "data: " = true)
    by reflexivity.
  assert (H2 : JsString.no_newline ("data: " ++ refused_otp_text))
    by free_of_line_feed.
  split; [repeat split; assumption|].
  exact (leading_data_line_is_dropped true Api.initial
           ("data: " ++ refused_otp_text)%string "" [] Api.Closed eq_refl H1 H2).
Defined.

(** A [done] event whose payload is [null]. *)
Lemma falsy_done_payload_is_no_result_witness :
  Api.downloadInvoices true
    (streamed [("event: done" ++ nl ++ "data: null" ++ nl)%string]) =
  ([Api.RecordDone JNull],
   Api.Throw (Api.new_Error "Téléchargement terminé sans résultat")).
Proof.
  pose (b := Api.mkBody [("event: done" ++ nl ++ "data: null" ++ nl)%string] Api.Closed).
  exact (falsy_done_payload_is_no_result true (streamed (Api.chunks b)) b
           (Api.mkLoopState "" JNull [Api.RecordDone JNull]) JNull
           eq_refl eq_refl eq_refl eq_refl).
Defined.


(** After two reads the buffer holds the unfinished third line. *)
Lemma buffer_holds_the_unfinished_line_witness :
  let cs := [("event: done" ++ nl ++ "da")%string;
             ("ta: {}" ++ nl ++ "event: pro")%string] in
  snd (Api.read_loop true Api.initial cs Api.Closed) = None
  /\ Api.buffer (fst (Api.read_loop true Api.initial cs Api.Closed)) = "event: pro".
Proof.
  cbv zeta. split; [reflexivity|].
  pose (cs := [("event: done" ++ nl ++ "da")%string;
               ("ta: {}" ++ nl ++ "event: pro")%string]).
  assert (H : Api.read_loop true Api.initial cs Api.Closed =
              (fst (Api.read_loop true Api.initial cs Api.Closed), None))
    by reflexivity.
  destruct (buffer_holds_the_unfinished_line true Api.initial _ cs
              no_newline_empty H) as [-> _].
  reflexivity.
Defined.

(** *** The session *)

Lemma downloading_reachable : App.reachable downloading.
Proof.
  apply (App.reachable_step App.initial).
  - apply App.reachable_initial.
  - apply App.step_download_begin.
Defined.

Lemma downloading_live : App.live downloading 0.
Proof.
  repeat split.
  - cbn. lia.
  - intros [].
Defined.


Lemma cancel_leaves_no_live_download_witness :
  App.reachable downloading
  /\ App.live downloading 0
  /\ ~ App.live (App.handleCancelDownload downloading) 0.
Proof.
  split; [exact downloading_reachable|]. split; [exact downloading_live|].
  destruct (cancel_leaves_no_live_download downloading downloading_reachable)
    as [H _].
  exact (H 0).
Defined.

Lemma refused_code_keeps_the_pending_download_witness :
  let response := App.mkOTPResponse false "Code incorrect" true in
  let s' := App.handleSubmitOTP (inl response) ([], Api.Throw otp_required) challenged in
  4 <= String.length (App.otpCode challenged)
  /\ App.network s' = [App.PostDownload params_2024 0; App.PostSubmitOtp "123456"]
  /\ App.pendingDownload s' = Some params_2024
  /\ App.requiresOTP s' = true
  /\ App.otpError s' = Some "Code incorrect".
Proof.
  cbv zeta.
  assert (Hlen : 4 <= String.length (App.otpCode challenged)) by (cbn; lia).
  split; [exact Hlen|].
  destruct (refused_code_keeps_the_pending_download
              (App.mkOTPResponse false "Code incorrect" true)
              ([], Api.Throw otp_required) challenged Hlen eq_refl)
    as (H1 & H2 & H3 & H4 & _).
  cbv zeta in *. rewrite H1, H2, H3, H4. repeat split.
Defined.

Lemma failed_submission_changes_nothing_else_witness :
  let err := Api.mkError "AxiosError" "Network Error" None in
  let s' := App.handleSubmitOTP (inr err) ([], Api.Throw otp_required) challenged in
  4 <= String.length (App.otpCode challenged)
  /\ App.network s' = [App.PostDownload params_2024 0; App.PostSubmitOtp "123456"]
  /\ App.pendingDownload s' = Some params_2024
  /\ App.requiresOTP s' = true
  /\ App.otpError s' = Some "Network Error".
Proof.
  cbv zeta.
  assert (Hlen : 4 <= String.length (App.otpCode challenged)) by (cbn; lia).
  split; [exact Hlen|].
  destruct (failed_submission_changes_nothing_else
              (Api.mkError "AxiosError" "Network Error" None)
              ([], Api.Throw otp_required) challenged Hlen)
    as (H1 & H2 & H3 & H4 & _).
  cbv zeta in *. rewrite H1, H2, H3, H4. repeat split.
Defined.

(** The status check at start-up found a code required: no download is
    pending. *)
Lemma accepted_code_without_pending_witness :
  let s := App.setOtpCode "123456"
             (App.checkStatus (inl ("Code requis", true)) App.initial) in
  let s' := App.handleSubmitOTP (inl code_accepted) ([], Api.Throw otp_required) s in
  (4 <= String.length (App.otpCode s) /\ App.pendingDownload s = None)
  /\ App.network s' = [App.PostSubmitOtp "123456"]
  /\ App.requiresOTP s' = false.
Proof.
  cbv zeta.
  pose (s := App.setOtpCode "123456"
               (App.checkStatus (inl ("Code requis", true)) App.initial)).
  assert (Hlen : 4 <= String.length (App.otpCode s)) by (cbn; lia).
  split; [split; [exact Hlen|reflexivity]|].
  destruct (accepted_code_without_pending code_accepted
              ([], Api.Throw otp_required) s Hlen eq_refl eq_refl eq_refl)
    as (H1 & H2 & _).
  cbv zeta in *. fold s. rewrite H1, H2. split; reflexivity.
Defined.


Lemma unauthorized_response_opens_the_challenge_witness :
  let response := Api.mkResponse false 401 "Unauthorized" None None in
  let s' := App.handleDownload params_2024
              (Api.downloadInvoices true response) App.initial in
  Api.json response <> Some JNull
  /\ App.requiresOTP s' = true
  /\ App.pendingDownload s' = Some params_2024
  /\ App.error s' = Some "Unauthorized".
Proof.
  cbv zeta.
  assert (H : Api.json (Api.mkResponse false 401 "Unauthorized" None None)
              <> Some JNull) by discriminate.
  split; [exact H|].
  destruct (unauthorized_response_opens_the_challenge params_2024
              (Api.mkResponse false 401 "Unauthorized" None None) App.initial
              eq_refl eq_refl eq_refl H)
    as (H1 & H2 & _ & H4 & _).
  cbv zeta in *. rewrite H1, H2, H4. repeat split.
Defined.


Lemma unknown_total_hides_the_bar_witness :
  let members := [("current", JNum 1%float)] in
  let p := Api.mkDownloadProgress (JNum 1%float) (JNum (-1)%float) (JStr "") in
  let info := StatusDisplay.mkProgressInfo 1%float (-1)%float "" in
  (lookup "total" members = None
   /\ Api.progress_event (JObj members) = inl p
   /\ View.progress_prop p = Some info)
  /\ StatusDisplay.showBar (Some info) = false.
Proof.
  cbv zeta. split; [repeat split|].
  destruct (unknown_total_hides_the_bar [("current", JNum 1%float)]
              (Api.mkDownloadProgress (JNum 1%float) (JNum (-1)%float) (JStr ""))
              (StatusDisplay.mkProgressInfo 1%float (-1)%float "")
              (or_introl eq_refl) eq_refl eq_refl)
    as (_ & H & _).
  exact H.
Defined.

End MoreInstances.
